(** * X11 forwarding for an SSH server: authority records, display
      allocation, the accept loop and the request-payload parsers.

    A shallow embedding of [x11.go] and of the payload parsers that ship
    with it.  Go values are modelled as follows.

    - [[]byte] is [list byte]; a slice's capacity is taken equal to its
      length, which is all the code below can observe.
    - [string] is [string]; [[]byte(s)] is [list_byte_of_string] and
      [string(b)] is [string_of_list_byte], both byte for byte.
    - [uint16] and [uint32] are [Z] with the wrap-around written out
      ([u16], [u32]); [int] is the 64-bit [int] of the supported hosts.
    - A run-time panic (index or slice bounds) is the [Panic] outcome of
      the [go] type; Go's [error] results are ordinary values. *)

From Stdlib Require Import ZArith List String Ascii Lia.
From Stdlib Require Import Decimal DecimalString DecimalPos DecimalZ.
From Stdlib.Strings Require Import Byte.
From stdpp Require Import gmap strings list.
Import ListNotations.

Local Open Scope Z_scope.
#[local] Set Warnings "-clear-no-such-hyp".

(* ===================================================================== *)
(** ** Outcomes of Go code: normal return or run-time panic               *)
(* ===================================================================== *)

Inductive panic : Type :=
  | SliceBounds (lo hi cap : Z)   (* slice bounds out of range [lo:hi] *)
  | IndexRange (i n : Z).         (* index out of range [i] with length n *)

Inductive go (A : Type) : Type :=
  | Done (a : A)
  | Panic (p : panic).

Arguments Done {A} a.
Arguments Panic {A} p.

Definition go_bind {A B : Type} (m : go A) (k : A -> go B) : go B :=
  match m with
  | Done a => k a
  | Panic p => Panic p
  end.

Notation "x <- m ;; k" := (go_bind m (fun x => k))
  (at level 100, m at next level, right associativity).

Definition returns {A : Type} (m : go A) : Prop := exists a, m = Done a.

(* ===================================================================== *)
(** ** Bytes, fixed-width integers and slices                             *)
(* ===================================================================== *)

Module Bytes.

Definition byteZ (b : byte) : Z := Z.of_N (Byte.to_N b).

(** [byte(v)]: the low eight bits of an unsigned integer. *)
Definition byte_of_Z (z : Z) : byte :=
  match Byte.of_N (Z.to_N (z mod 256)) with
  | Some b => b
  | None => x00
  end.

Definition u16 (z : Z) : Z := z mod 65536.
Definition u32 (z : Z) : Z := z mod 4294967296.

Definition len (l : list byte) : Z := Z.of_nat (List.length l).

(** [b[i]] *)
Definition index (l : list byte) (i : Z) : go byte :=
  if (0 <=? i) && (i <? len l)
  then match nth_error l (Z.to_nat i) with
       | Some b => Done b
       | None => Panic (IndexRange i (len l))
       end
  else Panic (IndexRange i (len l)).

(** [b[lo:hi]] *)
Definition slice (l : list byte) (lo hi : Z) : go (list byte) :=
  if (0 <=? lo) && (lo <=? hi) && (hi <=? len l)
  then Done (firstn (Z.to_nat (hi - lo)) (skipn (Z.to_nat lo) l))
  else Panic (SliceBounds lo hi (len l)).

(** [b[lo:]] *)
Definition slice_from (l : list byte) (lo : Z) : go (list byte) :=
  slice l lo (len l).

(** [binary.BigEndian.Uint32]; its first statement is the bounds check
    [_ = b[3]]. *)
Definition Uint32 (b : list byte) : go Z :=
  match b with
  | b0 :: b1 :: b2 :: b3 :: _ =>
      Done (Z.lor (Z.lor (Z.lor (byteZ b3) (Z.shiftl (byteZ b2) 8))
                         (Z.shiftl (byteZ b1) 16))
                  (Z.shiftl (byteZ b0) 24))
  | _ => Panic (IndexRange 3 (len b))
  end.

(** The value of four big-endian bytes, arithmetically. *)
Definition be32 (b0 b1 b2 b3 : byte) : Z :=
  byteZ b0 * 16777216 + byteZ b1 * 65536 + byteZ b2 * 256 + byteZ b3.

(** The big-endian value at the head of a buffer, when it has four bytes. *)
Definition decode32 (l : list byte) : option Z :=
  match l with
  | b0 :: b1 :: b2 :: b3 :: _ => Some (be32 b0 b1 b2 b3)
  | _ => None
  end.

End Bytes.
Import Bytes.

(* ===================================================================== *)
(** ** The payload parsers                                                *)
(* ===================================================================== *)

Record Window : Type := { Width : Z; Height : Z }.
Record Pty : Type := { Term : string; PtyWindow : Window }.
Record X11 : Type := {
  SingleConnection : bool;
  AuthProtocol : string;
  AuthData : string;
  ScreenNumber : Z
}.

Module Parser.

(** The zero values the named results hold on an early [return]. *)
Definition zeroWindow : Window := {| Width := 0; Height := 0 |}.
Definition zeroPty : Pty := {| Term := ""; PtyWindow := zeroWindow |}.
Definition zeroX11 : X11 :=
  {| SingleConnection := false; AuthProtocol := ""; AuthData := "";
     ScreenNumber := 0 |}.

(** The comparison and both slice bounds are computed in [uint32]:
    [4+length] wraps, and [uint32(len(in))] truncates. *)
Definition parseString (in_ : list byte) : go (string * list byte * bool) :=
  if len in_ <? 4 then Done (""%string, [], false)
  else
    n <- Uint32 in_ ;;
    if u32 (len in_) <? u32 (4 + n) then Done (""%string, [], false)
    else
      out <- slice in_ 4 (u32 (4 + n)) ;;
      rest <- slice_from in_ (u32 (4 + n)) ;;
      Done (string_of_list_byte out, rest, true).

Definition parseUint32 (in_ : list byte) : go (Z * list byte * bool) :=
  if len in_ <? 4 then Done (0, [], false)
  else
    v <- Uint32 in_ ;;
    rest <- slice_from in_ 4 ;;
    Done (v, rest, true).

Definition parseBool (in_ : list byte) : go (bool * list byte * bool) :=
  if len in_ <? 1 then Done (false, [], false)
  else
    b <- index in_ 0 ;;
    rest <- slice_from in_ 1 ;;
    Done (byteZ b =? 1, rest, true).

Definition parsePtyRequest (s : list byte) : go (Pty * bool) :=
  r <- parseString s ;; let '(term, s, ok) := r in
  if negb ok then Done (zeroPty, ok)
  else
    r <- parseUint32 s ;; let '(width32, s, ok) := r in
    if negb ok then Done (zeroPty, ok)
    else
      r <- parseUint32 s ;; let '(height32, _, ok) := r in
      if negb ok then Done (zeroPty, ok)
      else Done ({| Term := term;
                    PtyWindow := {| Width := width32; Height := height32 |} |},
                 ok).

Definition parseX11Request (s : list byte) : go (X11 * bool) :=
  r <- parseBool s ;; let '(single, s, ok) := r in
  if negb ok then Done (zeroX11, ok)
  else
    r <- parseString s ;; let '(protocol, s, ok) := r in
    if negb ok then Done (zeroX11, ok)
    else
      r <- parseString s ;; let '(data, s, ok) := r in
      if negb ok then Done (zeroX11, ok)
      else
        r <- parseUint32 s ;; let '(screen, _, ok) := r in
        if negb ok then Done (zeroX11, ok)
        else Done ({| SingleConnection := single; AuthProtocol := protocol;
                      AuthData := data; ScreenNumber := screen |}, ok).

Definition parseWinchRequest (s : list byte) : go (Window * bool) :=
  r <- parseUint32 s ;; let '(width32, s, ok) := r in
  let ok := if width32 <? 1 then false else ok in
  if negb ok then Done (zeroWindow, ok)
  else
    r <- parseUint32 s ;; let '(height32, _, ok) := r in
    let ok := if height32 <? 1 then false else ok in
    if negb ok then Done (zeroWindow, ok)
    else Done ({| Width := width32; Height := height32 |}, ok).

End Parser.

(* ===================================================================== *)
(** ** Errors and the host                                                *)
(* ===================================================================== *)

Inductive error : Type :=
  | ErrLength                     (* hex: odd length hex string *)
  | InvalidByteError (b : byte)   (* hex: invalid byte *)
  | ErrHostname                   (* os.Hostname failed *)
  | ErrCreateTemp                 (* os.CreateTemp failed *)
  | ErrWriteFile                  (* os.WriteFile failed *)
  | ErrAddrInUse (port : Z)       (* net.Listen: address already in use *)
  | ErrAccept (code : Z)          (* Accept failed on an open listener *)
  | ErrClosed.                    (* use of closed network connection *)

Inductive result (A : Type) : Type :=
  | Ok (a : A)
  | Err (e : error).

Arguments Ok {A} a.
Arguments Err {A} e.

Inductive ByteOrder : Type := LittleEndian | BigEndian.

(** What the code asks of the machine it runs on: its byte order, and the
    answers of [os.Hostname], [os.CreateTemp] and [os.WriteFile]. *)
Record Host : Type := {
  hostOrder : ByteOrder;
  osHostname : result string;
  osCreateTemp : result string;
  osWriteFile : option error
}.

(* ===================================================================== *)
(** ** Library functions the code calls                                   *)
(* ===================================================================== *)

Module Hex.

(** [encoding/hex]: the value of a hexadecimal digit, either case. *)
Definition fromHexChar (c : byte) : option Z :=
  let v := byteZ c in
  if (48 <=? v) && (v <=? 57) then Some (v - 48)
  else if (97 <=? v) && (v <=? 102) then Some (v - 97 + 10)
  else if (65 <=? v) && (v <=? 70) then Some (v - 65 + 10)
  else None.

(** [hex.Decode]: pairs of digits, left to right; an invalid byte is
    reported before an odd length. *)
Fixpoint Decode (src : list byte) : list byte * option error :=
  match src with
  | [] => ([], None)
  | [p] =>
      match fromHexChar p with
      | None => ([], Some (InvalidByteError p))
      | Some _ => ([], Some ErrLength)
      end
  | p :: q :: rest =>
      match fromHexChar p, fromHexChar q with
      | None, _ => ([], Some (InvalidByteError p))
      | Some _, None => ([], Some (InvalidByteError q))
      | Some a, Some b =>
          let '(out, err) := Decode rest in
          (byte_of_Z (Z.lor (Z.shiftl a 4) b) :: out, err)
      end
  end.

Definition DecodeString (s : string) : list byte * option error :=
  Decode (list_byte_of_string s).

Definition hextable : list byte := list_byte_of_string "0123456789abcdef".

Definition hexdigit (v : Z) : byte := nth (Z.to_nat v) hextable x00.

Fixpoint Encode (src : list byte) : list byte :=
  match src with
  | [] => []
  | v :: rest =>
      hexdigit (Z.shiftr (byteZ v) 4) :: hexdigit (Z.land (byteZ v) 15)
        :: Encode rest
  end.

Definition EncodeToString (src : list byte) : string :=
  string_of_list_byte (Encode src).

End Hex.

Module Binary.

Definition put16 (o : ByteOrder) (v : Z) : list byte :=
  match o with
  | LittleEndian => [byte_of_Z v; byte_of_Z (Z.shiftr v 8)]
  | BigEndian => [byte_of_Z (Z.shiftr v 8); byte_of_Z v]
  end.

(** Store [bs] into [buf] from offset [pos] on ([pos + |bs| <= |buf|]). *)
Definition write_at (buf : list byte) (pos : nat) (bs : list byte) : list byte :=
  firstn pos buf ++ bs ++ skipn (pos + List.length bs) buf.

(** [o.PutUint16(buf[pos:], v)]: the slice expression panics beyond the
    end of the buffer, the store when fewer than two bytes remain. *)
Definition PutUint16 (o : ByteOrder) (buf : list byte) (pos v : Z)
  : go (list byte) :=
  sub <- slice_from buf pos ;;
  if len sub <? 2 then Panic (IndexRange 1 (len sub))
  else Done (write_at buf (Z.to_nat pos) (put16 o v)).

(** [copy(buf[pos:], src)] copies as many bytes as fit. *)
Definition copy (buf : list byte) (pos : Z) (src : list byte)
  : go (list byte) :=
  sub <- slice_from buf pos ;;
  let n := Z.min (len sub) (len src) in
  Done (write_at buf (Z.to_nat pos) (firstn (Z.to_nat n) src)).

Definition make (n : Z) : list byte := repeat x00 (Z.to_nat n).

End Binary.

(** [strconv.Itoa] *)
Definition Itoa (i : Z) : string := NilZero.string_of_int (Z.to_int i).

(** [len(s)] of a string: its number of bytes. *)
Definition slen (s : string) : Z := Z.of_nat (String.length s).

(* ===================================================================== *)
(** ** The authority record                                               *)
(* ===================================================================== *)

Record XAuthority : Type := {
  Family : Z;
  AddrLen : Z;
  Addr : string;
  NumberLen : Z;
  Number : string;
  NameLen : Z;
  Name : string;
  DataLen : Z;
  Data : string
}.

Module XAuth.
Import Hex Binary.

Definition AF_LOCAL : Z := 1.

(** The bytes of an [int32] in the host's memory, lowest address first. *)
Definition int32_memory (o : ByteOrder) (i : Z) : list byte :=
  let msb_first := [byte_of_Z (Z.shiftr i 24); byte_of_Z (Z.shiftr i 16);
                    byte_of_Z (Z.shiftr i 8); byte_of_Z i] in
  match o with
  | BigEndian => msb_first
  | LittleEndian => rev msb_first
  end.

Definition isLittleEndian (h : Host) : bool :=
  match int32_memory (hostOrder h) 16909060 with   (* 0x01020304 *)
  | b :: _ => byteZ b =? 4
  | [] => false
  end.

Definition prepareXAuthority (h : Host) (request : X11) (seat : Z)
  : go (result (list byte)) :=
  match DecodeString (AuthData request) with
  | (_, Some err) => Done (Err err)
  | (data, None) =>
    match osHostname h with
    | Err err => Done (Err err)
    | Ok hostname =>
      let family := u16 AF_LOCAL in
      let number := Itoa seat in
      let addrLen := u16 (slen hostname) in
      let numberLen := u16 (slen number) in
      let nameLen := u16 (slen (AuthProtocol request)) in
      let dataLen := u16 (len data) in
      let buf :=
        make (u16 (u16 (u16 (u16 (addrLen + numberLen) + nameLen) + dataLen) + 10)) in
      let pos := u16 0 in
      buf <- (if isLittleEndian h
              then PutUint16 LittleEndian buf pos family
              else PutUint16 BigEndian buf pos family) ;;
      let pos := u16 (pos + 2) in
      buf <- PutUint16 BigEndian buf pos addrLen ;;
      let pos := u16 (pos + 2) in
      buf <- copy buf pos (list_byte_of_string hostname) ;;
      let pos := u16 (pos + addrLen) in
      buf <- PutUint16 BigEndian buf pos numberLen ;;
      let pos := u16 (pos + 2) in
      buf <- copy buf pos (list_byte_of_string number) ;;
      let pos := u16 (pos + numberLen) in
      buf <- PutUint16 BigEndian buf pos nameLen ;;
      let pos := u16 (pos + 2) in
      buf <- copy buf pos (list_byte_of_string (AuthProtocol request)) ;;
      let pos := u16 (pos + nameLen) in
      buf <- PutUint16 BigEndian buf pos dataLen ;;
      let pos := u16 (pos + 2) in
      buf <- copy buf pos data ;;
      Done (Ok buf)
    end
  end.

(** *** Reading a record back, field by field

    The reader of an authority file: a two-byte family in the reader's
    byte order, then four fields, each after its big-endian 16-bit
    length. *)

Definition get16 (o : ByteOrder) (b0 b1 : byte) : Z :=
  match o with
  | LittleEndian => byteZ b0 + byteZ b1 * 256
  | BigEndian => byteZ b0 * 256 + byteZ b1
  end.

Definition readField (b : list byte) : option (Z * list byte * list byte) :=
  match b with
  | hi :: lo :: rest =>
      let n := get16 BigEndian hi lo in
      if n <=? len rest
      then Some (n, firstn (Z.to_nat n) rest, skipn (Z.to_nat n) rest)
      else None
  | _ => None
  end.

Definition readXAuthority (o : ByteOrder) (b : list byte)
  : option (XAuthority * list byte) :=
  match b with
  | f0 :: f1 :: b =>
      match readField b with
      | Some (addrLen, addr, b) =>
        match readField b with
        | Some (numberLen, number, b) =>
          match readField b with
          | Some (nameLen, name, b) =>
            match readField b with
            | Some (dataLen, data, b) =>
                Some ({| Family := get16 o f0 f1;
                         AddrLen := addrLen;
                         Addr := string_of_list_byte addr;
                         NumberLen := numberLen;
                         Number := string_of_list_byte number;
                         NameLen := nameLen;
                         Name := string_of_list_byte name;
                         DataLen := dataLen;
                         Data := string_of_list_byte data |}, b)
            | None => None
            end
          | None => None
          end
        | None => None
        end
      | None => None
      end
  | _ => None
  end.

(** The record holding the four given values. *)
Definition record_of (hostname : string) (seat : Z) (name : string)
    (data : list byte) : XAuthority :=
  {| Family := AF_LOCAL;
     AddrLen := slen hostname; Addr := hostname;
     NumberLen := slen (Itoa seat); Number := Itoa seat;
     NameLen := slen name; Name := name;
     DataLen := len data; Data := string_of_list_byte data |}.

(** The size of the record that holds the four fields. *)
Definition record_size (hostname : string) (seat : Z) (name : string)
    (data : list byte) : Z :=
  slen hostname + slen (Itoa seat) + slen name + len data + 10.

(** The bytes of a record, field after field: the family in the order
    [o], every length prefix big-endian. *)
Definition layout (o : ByteOrder) (hostname number name : string)
    (data : list byte) : list byte :=
  put16 o AF_LOCAL
  ++ put16 BigEndian (slen hostname) ++ list_byte_of_string hostname
  ++ put16 BigEndian (slen number) ++ list_byte_of_string number
  ++ put16 BigEndian (slen name) ++ list_byte_of_string name
  ++ put16 BigEndian (len data) ++ data.

(** The two bytes at offset [pos], read as a big-endian number. *)
Definition be16_at (buf : list byte) (pos : Z) : option Z :=
  match skipn (Z.to_nat pos) buf with
  | hi :: lo :: _ => Some (byteZ hi * 256 + byteZ lo)
  | _ => None
  end.

(** Reading a decimal string back ([strconv.Atoi] on well-formed input). *)
Definition Atoi (s : string) : option Z :=
  option_map Z.of_int (NilZero.int_of_string s).

End XAuth.

(* ===================================================================== *)
(** ** The operating system: files, bound ports, the log                  *)
(* ===================================================================== *)

Record Listener : Type := { lnHost : string; lnPort : Z }.
Record File : Type := { fileName : string }.
Record Conn : Type := { remoteAddr : string }.

Record OS : Type := {
  fs : gmap string (list byte);   (* path to content *)
  bound : gset Z;                 (* TCP ports with a listening socket *)
  logged : list error             (* what log.Println printed, oldest first *)
}.

Module Sys.

(** [os.CreateTemp("", ".Xauthority")]: a new, empty file under the name
    the host picks. *)
Definition CreateTemp (h : Host) (os : OS) : result File * OS :=
  match osCreateTemp h with
  | Err e => (Err e, os)
  | Ok name =>
      (Ok {| fileName := name |},
       {| fs := <[name := []]> (fs os); bound := bound os; logged := logged os |})
  end.

(** [os.Remove] *)
Definition Remove (name : string) (os : OS) : OS :=
  {| fs := delete name (fs os); bound := bound os; logged := logged os |}.

(** [os.WriteFile(name, buf, 0600)] *)
Definition WriteFile (h : Host) (name : string) (buf : list byte) (os : OS)
  : option error * OS :=
  match osWriteFile h with
  | Some e => (Some e, os)
  | None =>
      (None,
       {| fs := <[name := buf]> (fs os); bound := bound os; logged := logged os |})
  end.

(** [net.Listen("tcp", net.JoinHostPort(host, strconv.Itoa(port)))]: the
    bind fails when the port already has a listening socket. *)
Definition Listen (host : string) (port : Z) (os : OS) : result Listener * OS :=
  if decide (port ∈ bound os) then (Err (ErrAddrInUse port), os)
  else (Ok {| lnHost := host; lnPort := port |},
        {| fs := fs os; bound := {[port]} ∪ bound os; logged := logged os |}).

(** [ln.Close()] *)
Definition Close (ln : Listener) (os : OS) : OS :=
  {| fs := fs os; bound := bound os ∖ {[lnPort ln]}; logged := logged os |}.

(** The log with the lines [es] printed after those already there. *)
Definition with_log (os : OS) (es : list error) : OS :=
  {| fs := fs os; bound := bound os; logged := logged os ++ es |}.

(** [log.Println(err)] *)
Definition Println (e : error) (os : OS) : OS := with_log os [e].

End Sys.

(* ===================================================================== *)
(** ** The display allocator                                              *)
(* ===================================================================== *)

Module Alloc.
Import Sys XAuth.

Definition X11DisplayHost : string := "localhost".
Definition X11DisplayBasePort : Z := 6000.
Definition X11DisplayOffset : Z := 10.

(** The three results of [NewX11Forwarder]; [None] is Go's [nil]. *)
Definition results : Type := (option Listener * option File * option error)%type.

(** The [for] loop of [NewX11Forwarder] from index [i] on, with [n]
    iterations left, followed by the statements after the loop.

    [err] is the function's variable of that name.  The loop body
    declares its own [err] ([ln, err := net.Listen(...)]), so the bind
    errors never reach the function's variable: they are logged, and the
    final [return nil, nil, err] returns the variable as it was before the
    loop. *)
Fixpoint attempts (h : Host) (request : X11) (xauthFile : File)
    (err : option error) (n : nat) (i : Z) (os : OS) : go results * OS :=
  match n with
  | O => (Done (None, None, err), Remove (fileName xauthFile) os)
  | S n' =>
      let port := X11DisplayBasePort + X11DisplayOffset + i in
      match Listen X11DisplayHost port os with
      | (Ok ln, os) =>
          match prepareXAuthority h request (X11DisplayOffset + i) with
          | Panic p => (Panic p, os)
          | Done (Err err') =>
              let os := Close ln os in
              let os := Remove (fileName xauthFile) os in
              (Done (None, None, Some err'), os)
          | Done (Ok buf) =>
              match WriteFile h (fileName xauthFile) buf os with
              | (Some err', os) =>
                  let os := Close ln os in
                  let os := Remove (fileName xauthFile) os in
                  (Done (None, None, Some err'), os)
              | (None, os) => (Done (Some ln, Some xauthFile, None), os)
              end
          end
      | (Err err', os) =>
          attempts h request xauthFile err n' (i + 1) (Println err' os)
      end
  end.

Definition NewX11Forwarder (h : Host) (request : X11) (os : OS)
  : go results * OS :=
  match CreateTemp h os with
  | (Err err, os) => (Done (None, None, Some err), os)
  | (Ok xauthFile, os) => attempts h request xauthFile None 50 0 os
  end.

(** The candidate ports [base+offset+i .. base+offset+i+n-1]. *)
Definition candidates (i : Z) (n : nat) : list Z :=
  map (fun k => X11DisplayBasePort + X11DisplayOffset + i + Z.of_nat k) (seq 0 n).

End Alloc.

(* ===================================================================== *)
(** ** The forwarding engine: the accept loop                             *)
(* ===================================================================== *)

Module Engine.
Import Sys.

(** What happens at the listener while the engine runs: a client
    connects, [Accept] fails on the listener as it is, or another party
    closes the listener. *)
Inductive event : Type :=
  | Connects (c : Conn)
  | Fails (code : Z)
  | Closes.

(** What the engine does, in order. *)
Inductive action : Type :=
  | Spawned (c : Conn)        (* go func(conn) {...}(conn) *)
  | Removed (name : string).  (* the deferred os.Remove *)

Inductive status : Type := Running | Stopped.

(** [l.Accept()] on an open listener whose next event is [e]. *)
Definition Accept (l : Listener) (e : event) (os : OS) : result Conn * OS :=
  match e with
  | Connects c => (Ok c, os)
  | Fails code => (Err (ErrAccept code), os)
  | Closes => (Err ErrClosed, Close l os)
  end.

(** [ForwardX11Connections]: the loop, then the deferred [os.Remove]
    when the function returns.  [Accept] on a closed listener fails at
    once; on an open one it blocks for the next event, and the engine is
    still [Running] when none is left.  The session's connection is taken
    to be present in its context.  The per-connection goroutine touches
    neither the listener nor the file; it is recorded as [Spawned].  The
    result lists the actions so far, oldest first. *)
Fixpoint acceptLoop (l : Listener) (xauth : File) (pending : list event)
    (os : OS) (done : list action) {struct pending}
  : status * list action * OS :=
  if decide (lnPort l ∈ bound os)
  then match pending with
       | [] => (Running, done, os)
       | e :: pending =>
           match Accept l e os with
           | (Ok c, os) => acceptLoop l xauth pending os (done ++ [Spawned c])
           | (Err _, os) =>
               (Stopped, done ++ [Removed (fileName xauth)],
                Remove (fileName xauth) os)
           end
       end
  else (Stopped, done ++ [Removed (fileName xauth)], Remove (fileName xauth) os).

Definition ForwardX11Connections (l : Listener) (xauth : File)
    (pending : list event) (os : OS) : status * list action * OS :=
  acceptLoop l xauth pending os [].

Definition is_removed (a : action) : bool :=
  match a with Removed _ => true | Spawned _ => false end.

(** How many times the file was removed. *)
Definition removals (acts : list action) : nat :=
  List.length (List.filter is_removed acts).

Definition is_failure (e : event) : bool :=
  match e with Connects _ => false | _ => true end.

End Engine.

(* ===================================================================== *)
(** ** The wire format the parsers read                                   *)
(* ===================================================================== *)

(** The writers of the format the payload parsers read: a 32-bit number
    is four bytes, high byte first; a string is its length as such a number
    followed by its bytes; a boolean is one byte. *)
Module Wire.

Definition put32 (v : Z) : list byte :=
  [byte_of_Z (Z.shiftr v 24); byte_of_Z (Z.shiftr v 16);
   byte_of_Z (Z.shiftr v 8); byte_of_Z v].

Definition wire_string (s : string) : list byte :=
  put32 (slen s) ++ list_byte_of_string s.

Definition wire_bool (b : bool) : list byte := [if b then x01 else x00].

(** The payload of a [pty-req], an [x11-req] and a [window-change]
    request; [more] stands for whatever follows the fields read. *)
Definition wire_pty (pty : Pty) (more : list byte) : list byte :=
  wire_string (Term pty) ++ put32 (Width (PtyWindow pty))
  ++ put32 (Height (PtyWindow pty)) ++ more.

Definition wire_x11 (x11 : X11) (more : list byte) : list byte :=
  wire_bool (SingleConnection x11) ++ wire_string (AuthProtocol x11)
  ++ wire_string (AuthData x11) ++ put32 (ScreenNumber x11) ++ more.

Definition wire_window (win : Window) (more : list byte) : list byte :=
  put32 (Width win) ++ put32 (Height win) ++ more.

End Wire.

(* ===================================================================== *)
(** ** Concrete hosts and requests                                        *)
(* ===================================================================== *)

Module Samples.
Import Hex.

(** A little-endian host called [h] on which file operations succeed. *)
Definition host_le : Host :=
  {| hostOrder := LittleEndian;
     osHostname := Ok "h"%string;
     osCreateTemp := Ok "/tmp/.Xauthority1"%string;
     osWriteFile := None |}.

(** The same host with a failing [os.WriteFile]. *)
Definition host_ro : Host :=
  {| hostOrder := LittleEndian;
     osHostname := Ok "h"%string;
     osCreateTemp := Ok "/tmp/.Xauthority1"%string;
     osWriteFile := Some ErrWriteFile |}.

(** The request a client sends for protocol [name] and cookie [data]. *)
Definition request_of (name : string) (data : list byte) : X11 :=
  {| SingleConnection := false;
     AuthProtocol := name;
     AuthData := EncodeToString data;
     ScreenNumber := 0 |}.

Definition cookie (n : Z) : list byte := repeat x5a (Z.to_nat n).

Definition long_name (n : Z) : string :=
  string_of_list_byte (repeat "a"%byte (Z.to_nat n)).

Definition mit_request : X11 := request_of "MIT-MAGIC-COOKIE-1" (cookie 16).

(** Requests whose fields do not fit 16-bit sizes. *)
Definition req_long_name : X11 := request_of (long_name 65536) [].
Definition req_wrap_family : X11 := request_of (long_name 65525) (cookie 9).
Definition req_long_data : X11 := request_of "MIT-MAGIC-COOKIE-1" (cookie 65537).
Definition req_panic : X11 := request_of "" (cookie 65530).

(** An operating system with no file and the given ports taken. *)
Definition os_with (ports : list Z) : OS :=
  {| fs := ∅; bound := list_to_set ports; logged := [] |}.


(** A forwarder in service: display 10 is bound, its authority file
    exists. *)
Definition ln10 : Listener := {| lnHost := "localhost"; lnPort := 6010 |}.
Definition xauth10 : File := {| fileName := "/tmp/.Xauthority1" |}.
Definition os_serving : OS :=
  {| fs := {[ "/tmp/.Xauthority1"%string := [x01; x00] ]};
     bound := {[ 6010 ]};
     logged := [] |}.
Definition client (port : string) : Conn :=
  {| remoteAddr := String.append "127.0.0.1:" port |}.

(** [mit_request] as another client sends it: the same cookie in capital
    hexadecimal digits, a single connection, screen 3. *)
Definition mit_request_upper : X11 :=
  {| SingleConnection := true;
     AuthProtocol := "MIT-MAGIC-COOKIE-1";
     AuthData := "5A5A5A5A5A5A5A5A5A5A5A5A5A5A5A5A";
     ScreenNumber := 3 |}.

(** An idle host that has a file of its own, and the same host after
    display 10 was allocated on it. *)
Definition os_home : OS :=
  {| fs := {[ "/home/u/.profile"%string := [x68; x69] ]};
     bound := ∅;
     logged := [] |}.
Definition os_home_display10 : OS :=
  {| fs := <["/tmp/.Xauthority1"%string :=
              XAuth.layout LittleEndian "h" "10" "MIT-MAGIC-COOKIE-1" (cookie 16)]>
           (<["/tmp/.Xauthority1"%string := []]>
              {[ "/home/u/.profile"%string := [x68; x69] ]});
     bound := {[6010]} ∪ ∅;
     logged := [] |}.

(** The system after display 10 was allocated on an idle host. *)
Definition os_display10 : OS :=
  {| fs := <["/tmp/.Xauthority1"%string :=
              XAuth.layout LittleEndian "h" "10" "MIT-MAGIC-COOKIE-1" (cookie 16)]>
           (<["/tmp/.Xauthority1"%string := []]> ∅);
     bound := {[6010]} ∪ ∅;
     logged := [] |}.

(** Wire payloads. *)
Definition xterm_pty : Pty :=
  {| Term := "xterm"; PtyWindow := {| Width := 80; Height := 0 |} |}.

End Samples.

(* ===================================================================== *)
(** * Properties                                                          *)
(* ===================================================================== *)

(** ** Bytes and slices *)

Section ByteFacts.

Lemma byteZ_range (b : byte) : 0 <= byteZ b < 256.
Proof.
  unfold byteZ. pose proof (Byte.to_N_bounded b). lia.
Qed.

Lemma byteZ_inj (a b : byte) : byteZ a = byteZ b -> a = b.
Proof.
  unfold byteZ. intros H. apply N2Z.inj in H.
  pose proof (Byte.of_to_N a) as Ha. rewrite H, Byte.of_to_N in Ha.
  congruence.
Qed.

Lemma byteZ_of_Z (z : Z) : byteZ (byte_of_Z z) = z mod 256.
Proof.
  unfold byteZ, byte_of_Z.
  pose proof (Z.mod_pos_bound z 256 ltac:(lia)) as Hz.
  destruct (Byte.of_N (Z.to_N (z mod 256))) as [b|] eqn:E.
  - apply Byte.to_of_N in E. rewrite E. lia.
  - apply Byte.of_N_None_iff in E. lia.
Qed.

Lemma byte_of_byteZ (b : byte) : byte_of_Z (byteZ b) = b.
Proof.
  apply byteZ_inj. rewrite byteZ_of_Z.
  apply Z.mod_small, byteZ_range.
Qed.

Lemma land_shiftl_disjoint (a b n : Z) :
  0 <= n -> 0 <= a < 2 ^ n -> Z.land a (Z.shiftl b n) = 0.
Proof.
  intros Hn Ha. apply Z.bits_inj'. intros k Hk.
  rewrite Z.land_spec, Z.bits_0.
  destruct (Z.lt_ge_cases k n) as [Hlt | Hge].
  - rewrite (Z.shiftl_spec_low b n k Hlt). apply andb_false_r.
  - replace a with (a mod 2 ^ n) by (apply Z.mod_small; lia).
    rewrite Z.mod_pow2_bits_high by lia. reflexivity.
Qed.

Lemma lor_shiftl_add (a b n : Z) :
  0 <= n -> 0 <= a < 2 ^ n -> Z.lor a (Z.shiftl b n) = a + b * 2 ^ n.
Proof.
  intros Hn Ha.
  pose proof (land_shiftl_disjoint a b n Hn Ha) as Hd.
  rewrite <- (Z.lxor_lor _ _ Hd), <- (Z.add_nocarry_lxor _ _ Hd).
  rewrite Z.shiftl_mul_pow2 by lia. reflexivity.
Qed.

Lemma Uint32_cons4 (b0 b1 b2 b3 : byte) (r : list byte) :
  Uint32 (b0 :: b1 :: b2 :: b3 :: r) = Done (be32 b0 b1 b2 b3).
Proof.
  unfold Uint32, be32. f_equal.
  pose proof (byteZ_range b0). pose proof (byteZ_range b1).
  pose proof (byteZ_range b2). pose proof (byteZ_range b3).
  rewrite (lor_shiftl_add (byteZ b3) (byteZ b2) 8) by lia.
  rewrite (lor_shiftl_add _ (byteZ b1) 16) by lia.
  rewrite (lor_shiftl_add _ (byteZ b0) 24) by lia.
  lia.
Qed.

Lemma be32_range (b0 b1 b2 b3 : byte) : 0 <= be32 b0 b1 b2 b3 < 4294967296.
Proof.
  unfold be32.
  pose proof (byteZ_range b0). pose proof (byteZ_range b1).
  pose proof (byteZ_range b2). pose proof (byteZ_range b3). lia.
Qed.

Lemma len_nonneg (l : list byte) : 0 <= len l.
Proof. unfold len. lia. Qed.

Lemma len_cons (b : byte) (l : list byte) : len (b :: l) = len l + 1.
Proof. unfold len. cbn [List.length]. lia. Qed.

Lemma len_app (l1 l2 : list byte) : len (l1 ++ l2) = len l1 + len l2.
Proof. unfold len. rewrite List.length_app. lia. Qed.

Lemma slice_ok (l : list byte) (lo hi : Z) :
  0 <= lo <= hi -> hi <= len l ->
  slice l lo hi = Done (firstn (Z.to_nat (hi - lo)) (skipn (Z.to_nat lo) l)).
Proof.
  intros H1 H2. unfold slice.
  replace ((0 <=? lo) && (lo <=? hi) && (hi <=? len l)) with true; [reflexivity|].
  symmetry. rewrite !andb_true_iff. repeat split; lia.
Qed.

Lemma slice_from_ok (l : list byte) (lo : Z) :
  0 <= lo <= len l -> slice_from l lo = Done (skipn (Z.to_nat lo) l).
Proof.
  intros H. unfold slice_from. rewrite slice_ok by lia.
  f_equal. apply firstn_all2. rewrite List.length_skipn. unfold len in *. lia.
Qed.

Lemma slice_panics (l : list byte) (lo hi : Z) :
  hi < lo -> slice l lo hi = Panic (SliceBounds lo hi (len l)).
Proof.
  intros H. unfold slice.
  replace (lo <=? hi) with false by (symmetry; lia).
  rewrite andb_false_r. reflexivity.
Qed.

End ByteFacts.

(** ** The payload parsers *)

Section ParserFacts.
Import Parser.

Lemma parseUint32_short (s : list byte) :
  len s < 4 -> parseUint32 s = Done (0, [], false).
Proof.
  intros H. unfold parseUint32.
  replace (len s <? 4) with true by (symmetry; lia). reflexivity.
Qed.

Lemma parseUint32_cons4 (b0 b1 b2 b3 : byte) (r : list byte) :
  parseUint32 (b0 :: b1 :: b2 :: b3 :: r) = Done (be32 b0 b1 b2 b3, r, true).
Proof.
  unfold parseUint32.
  pose proof (len_nonneg r) as Hr.
  assert (Hl : len (b0 :: b1 :: b2 :: b3 :: r) = len r + 4)
    by (rewrite !len_cons; lia).
  replace (len (b0 :: b1 :: b2 :: b3 :: r) <? 4) with false by (symmetry; lia).
  rewrite Uint32_cons4. cbn [go_bind].
  rewrite slice_from_ok by lia. reflexivity.
Qed.

(** [parseUint32] decodes the four leading bytes when they are there and
    fails otherwise; it never panics. *)
Lemma parseUint32_decode (s : list byte) :
  parseUint32 s =
    match decode32 s with
    | Some v => Done (v, skipn 4 s, true)
    | None => Done (0, [], false)
    end.
Proof.
  destruct s as [|b0 [|b1 [|b2 [|b3 r]]]];
    try (rewrite parseUint32_short by (unfold len; cbn; lia); reflexivity).
  rewrite parseUint32_cons4. reflexivity.
Qed.

Lemma parseUint32_total (s : list byte) : returns (parseUint32 s).
Proof.
  rewrite parseUint32_decode. destruct (decode32 s); eexists; reflexivity.
Qed.

Lemma parseBool_nil : parseBool [] = Done (false, [], false).
Proof. reflexivity. Qed.

Lemma parseBool_cons (b : byte) (r : list byte) :
  parseBool (b :: r) = Done (byteZ b =? 1, r, true).
Proof.
  unfold parseBool.
  pose proof (len_nonneg r) as Hr.
  assert (Hl : len (b :: r) = len r + 1) by apply len_cons.
  replace (len (b :: r) <? 1) with false by (symmetry; lia).
  unfold index.
  replace ((0 <=? 0) && (0 <? len (b :: r))) with true
    by (symmetry; apply andb_true_iff; split; lia).
  cbn [Z.to_nat nth_error go_bind].
  rewrite slice_from_ok by lia. reflexivity.
Qed.

Lemma parseBool_total (s : list byte) : returns (parseBool s).
Proof.
  destruct s as [|b r]; eexists; [apply parseBool_nil | apply parseBool_cons].
Qed.

Lemma parseString_short (s : list byte) :
  len s < 4 -> parseString s = Done (""%string, [], false).
Proof.
  intros H. unfold parseString.
  replace (len s <? 4) with true by (symmetry; lia). reflexivity.
Qed.

(** With four bytes of prefix, a buffer below 4 GiB and a declared length
    that leaves [4+length] within [uint32], [parseString] compares the
    declared length with what remains. *)
Lemma parseString_declared (b0 b1 b2 b3 : byte) (r : list byte) :
  len r + 4 < 4294967296 ->
  be32 b0 b1 b2 b3 + 4 < 4294967296 ->
  parseString (b0 :: b1 :: b2 :: b3 :: r) =
    if len r <? be32 b0 b1 b2 b3
    then Done (""%string, [], false)
    else Done (string_of_list_byte (firstn (Z.to_nat (be32 b0 b1 b2 b3)) r),
               skipn (Z.to_nat (be32 b0 b1 b2 b3)) r, true).
Proof.
  intros Hlen Hn. unfold parseString.
  pose proof (len_nonneg r) as Hr.
  pose proof (be32_range b0 b1 b2 b3) as Hb.
  assert (Hl : len (b0 :: b1 :: b2 :: b3 :: r) = len r + 4)
    by (rewrite !len_cons; lia).
  replace (len (b0 :: b1 :: b2 :: b3 :: r) <? 4) with false by (symmetry; lia).
  rewrite Uint32_cons4. cbn [go_bind].
  set (n := be32 b0 b1 b2 b3) in *.
  unfold u32. rewrite Hl.
  rewrite (Z.mod_small (len r + 4)) by lia.
  rewrite (Z.mod_small (4 + n)) by lia.
  destruct (Z.ltb_spec (len r) n) as [Hlt | Hge].
  - replace (len r + 4 <? 4 + n) with true by (symmetry; lia). reflexivity.
  - replace (len r + 4 <? 4 + n) with false by (symmetry; lia).
    rewrite slice_ok by lia. cbn [go_bind].
    rewrite slice_from_ok by lia. cbn [go_bind].
    replace (Z.to_nat (4 + n - 4)) with (Z.to_nat n) by lia.
    replace (Z.to_nat 4) with 4%nat by reflexivity.
    replace (Z.to_nat (4 + n)) with (4 + Z.to_nat n)%nat by lia.
    cbn [skipn Nat.add]. reflexivity.
Qed.

(** A declared length of [2^32-4] or more makes [4+length] wrap to a
    value below 4: the length check passes and the slice expression
    [in[4 : 4+length]] panics. *)
Lemma parseString_wraps (b0 b1 b2 b3 : byte) (r : list byte) :
  len r + 4 < 4294967296 ->
  4294967296 <= be32 b0 b1 b2 b3 + 4 ->
  parseString (b0 :: b1 :: b2 :: b3 :: r) =
    Panic (SliceBounds 4 (be32 b0 b1 b2 b3 + 4 - 4294967296) (len r + 4)).
Proof.
  intros Hlen Hn. unfold parseString.
  pose proof (len_nonneg r) as Hr.
  pose proof (be32_range b0 b1 b2 b3) as Hb.
  assert (Hl : len (b0 :: b1 :: b2 :: b3 :: r) = len r + 4)
    by (rewrite !len_cons; lia).
  replace (len (b0 :: b1 :: b2 :: b3 :: r) <? 4) with false by (symmetry; lia).
  rewrite Uint32_cons4. cbn [go_bind].
  set (n := be32 b0 b1 b2 b3) in *.
  assert (Hw : u32 (4 + n) = n + 4 - 4294967296).
  { unfold u32. symmetry. apply (Z.mod_unique _ _ 1); lia. }
  rewrite Hw. unfold u32. rewrite Hl.
  rewrite (Z.mod_small (len r + 4)) by lia.
  replace (len r + 4 <? n + 4 - 4294967296) with false by (symmetry; lia).
  rewrite slice_panics by lia. rewrite Hl. reflexivity.
Qed.

(** C2 (the code departs from the claim).  The buffer [ff ff ff ff]
    declares a length of 2^32-1.  In [uint32], [4+length] is 3, so the
    check [uint32(len(in)) < 4+length] passes and [in[4:3]] panics: the
    parser neither returns failure nor stays within the buffer's bounds
    for this value of the length field. *)
Theorem parseString_panics_on_wrapped_length :
  Parser.parseString [xff; xff; xff; xff] = Panic (SliceBounds 4 3 4)
  /\ ~ returns (Parser.parseString [xff; xff; xff; xff]).
Proof.
  assert (E : parseString [xff; xff; xff; xff] = Panic (SliceBounds 4 3 4))
    by (vm_compute; reflexivity).
  split; [exact E|]. intros [a Ha]. rewrite E in Ha. discriminate.
Qed.

(** C7.  [parseBool] fails on the empty buffer; on any other buffer it
    succeeds, hands back the rest, and its value is true exactly when the
    first byte is 1: the byte 0 and every byte from 2 up give false. *)
Theorem parseBool_spec :
  Parser.parseBool [] = Done (false, [], false)
  /\ forall (b : byte) (r : list byte),
       exists v : bool,
         Parser.parseBool (b :: r) = Done (v, r, true)
         /\ (v = true <-> b = x01)
         /\ (byteZ b = 0 \/ 2 <= byteZ b -> v = false).
Proof.
  split; [apply parseBool_nil|].
  intros b r. exists (byteZ b =? 1). split; [apply parseBool_cons|]. split.
  - rewrite Z.eqb_eq. split.
    + intros H. apply byteZ_inj. rewrite H. reflexivity.
    + intros ->. reflexivity.
  - intros H. apply Z.eqb_neq. lia.
Qed.

(** C8.  [parseWinchRequest] never panics; it succeeds exactly when both
    big-endian fields are present and both decode to at least 1, and then
    returns them as width and height; a dimension that decodes to 0 makes
    it fail although the bytes are there. *)
Theorem parseWinchRequest_spec (s : list byte) :
  exists (win : Window) (ok : bool),
    Parser.parseWinchRequest s = Done (win, ok)
    /\ (ok = true <->
        exists w h, decode32 s = Some w /\ decode32 (skipn 4 s) = Some h
                    /\ 1 <= w /\ 1 <= h)
    /\ (forall w h, decode32 s = Some w -> decode32 (skipn 4 s) = Some h ->
                    w = 0 \/ h = 0 -> ok = false)
    /\ (forall w h, decode32 s = Some w -> decode32 (skipn 4 s) = Some h ->
                    1 <= w -> 1 <= h -> win = {| Width := w; Height := h |})
    /\ (ok = false -> win = Parser.zeroWindow).
Proof.
  unfold parseWinchRequest. rewrite parseUint32_decode.
  destruct (decode32 s) as [w|] eqn:Ew; cbn [go_bind].
  2:{ exists zeroWindow, false. cbn. repeat split; try congruence.
      intros (w & h & Hw & _). discriminate. }
  destruct (Z.ltb_spec w 1) as [Hw0 | Hw1]; cbn [negb].
  { exists zeroWindow, false. repeat split; try congruence.
    - intros (w' & h & Hw & _ & ? & _). injection Hw as <-. lia.
    - intros w' h Hw _ ? ?. injection Hw as <-. lia. }
  rewrite parseUint32_decode.
  destruct (decode32 (skipn 4 s)) as [h|] eqn:Eh; cbn [go_bind].
  2:{ exists zeroWindow, false. cbn. repeat split; try congruence.
      intros (w' & h & _ & Hh & _). discriminate. }
  destruct (Z.ltb_spec h 1) as [Hh0 | Hh1]; cbn [negb].
  { exists zeroWindow, false. repeat split; try congruence.
    - intros (w' & h' & _ & Hh & _ & ?). injection Hh as <-. lia.
    - intros w' h' _ Hh ? ?. injection Hh as <-. lia. }
  exists {| Width := w; Height := h |}, true. repeat split; try congruence.
  - intros _. exists w, h. repeat split; try reflexivity; try assumption; lia.
  - intros w' h' Hw Hh Hz. injection Hw as <-. injection Hh as <-. lia.
Qed.

End ParserFacts.

(** ** Library functions *)

Section LibraryFacts.
Import Hex Binary XAuth.

Lemma len_list_byte_of_string (s : string) : len (list_byte_of_string s) = slen s.
Proof.
  unfold len, slen, list_byte_of_string. rewrite List.length_map. f_equal.
  induction s as [|c s IH]; cbn; [reflexivity | now rewrite IH].
Qed.

Lemma Atoi_Itoa (z : Z) : Atoi (Itoa z) = Some z.
Proof.
  unfold Atoi, Itoa. rewrite NilZero.isi.
  - cbn [option_map]. f_equal. apply DecimalZ.of_to.
  - destruct z as [|p|p]; cbn; try discriminate.
    intros H. injection H as H. exact (Unsigned.to_uint_nonnil p H).
  - destruct z as [|p|p]; cbn; try discriminate.
    intros H. injection H as H. exact (Unsigned.to_uint_nonnil p H).
Qed.

Lemma hex_of_byte (b : byte) :
  fromHexChar (hexdigit (Z.shiftr (byteZ b) 4)) = Some (Z.shiftr (byteZ b) 4)
  /\ fromHexChar (hexdigit (Z.land (byteZ b) 15)) = Some (Z.land (byteZ b) 15)
  /\ byte_of_Z (Z.lor (Z.shiftl (Z.shiftr (byteZ b) 4) 4) (Z.land (byteZ b) 15)) = b.
Proof. destruct b; vm_compute; repeat split. Qed.

(** Decoding what [hex.Encode] produced gives the bytes back. *)
Lemma Decode_Encode (data : list byte) : Decode (Encode data) = (data, None).
Proof.
  induction data as [|b data IH]; [reflexivity|].
  destruct (hex_of_byte b) as (Hhi & Hlo & Hb).
  cbn [Encode Decode]. rewrite Hhi, Hlo, IH, Hb. reflexivity.
Qed.

Lemma DecodeString_EncodeToString (data : list byte) :
  DecodeString (EncodeToString data) = (data, None).
Proof.
  unfold DecodeString, EncodeToString.
  rewrite list_byte_of_string_of_list_byte. apply Decode_Encode.
Qed.

End LibraryFacts.

(** ** Stores into a buffer *)

Section BinaryFacts.
Import Binary.

Lemma u16_small (x : Z) : 0 <= x < 65536 -> u16 x = x.
Proof. intros H. unfold u16. now apply Z.mod_small. Qed.

Lemma u16_range (x : Z) : 0 <= u16 x < 65536.
Proof. unfold u16. apply Z.mod_pos_bound. lia. Qed.

Lemma length_list_byte_of_string (s : string) :
  List.length (list_byte_of_string s) = String.length s.
Proof.
  pose proof (len_list_byte_of_string s) as H. unfold len, slen in H. lia.
Qed.

Lemma length_put16 (o : ByteOrder) (v : Z) : List.length (put16 o v) = 2%nat.
Proof. destruct o; reflexivity. Qed.

Lemma write_at_app (pre post bs : list byte) :
  (List.length bs <= List.length post)%nat ->
  write_at (pre ++ post) (List.length pre) bs
  = (pre ++ bs) ++ skipn (List.length bs) post.
Proof.
  intros _. unfold write_at.
  rewrite List.firstn_app, List.firstn_all, Nat.sub_diag. cbn [firstn].
  rewrite List.app_nil_r, List.skipn_app.
  rewrite (List.skipn_all2 pre) by lia.
  replace (List.length pre + List.length bs - List.length pre)%nat
    with (List.length bs) by lia.
  cbn [app]. now rewrite List.app_assoc.
Qed.

Lemma length_write_at (buf bs : list byte) (pos : nat) :
  (pos + List.length bs <= List.length buf)%nat ->
  List.length (write_at buf pos bs) = List.length buf.
Proof.
  intros H. unfold write_at.
  rewrite !List.length_app, List.length_firstn, List.length_skipn. lia.
Qed.

Lemma to_nat_len (l : list byte) : Z.to_nat (len l) = List.length l.
Proof. unfold len. lia. Qed.

Lemma PutUint16_app (o : ByteOrder) (pre post : list byte) (pos v : Z) :
  pos = len pre -> 2 <= len post ->
  PutUint16 o (pre ++ post) pos v = Done ((pre ++ put16 o v) ++ skipn 2 post).
Proof.
  intros -> Hpost. unfold PutUint16.
  pose proof (len_nonneg pre) as Hpre.
  rewrite slice_from_ok by (rewrite len_app; lia). cbn [go_bind].
  rewrite to_nat_len, drop_app_length.
  destruct (Z.ltb_spec (len post) 2) as [Hc|Hc]; [lia|].
  rewrite write_at_app by (rewrite length_put16; unfold len in *; lia).
  now rewrite length_put16.
Qed.

Lemma copy_app (pre post src : list byte) (pos : Z) :
  pos = len pre -> len src <= len post ->
  copy (pre ++ post) pos src = Done ((pre ++ src) ++ skipn (List.length src) post).
Proof.
  intros -> Hsrc. unfold copy.
  pose proof (len_nonneg pre) as Hpre.
  pose proof (len_nonneg src) as Hsrc0.
  rewrite slice_from_ok by (rewrite len_app; lia). cbn [go_bind].
  rewrite to_nat_len, drop_app_length.
  rewrite Z.min_r by lia. rewrite to_nat_len, List.firstn_all.
  now rewrite write_at_app by (unfold len in *; lia).
Qed.

Lemma PutUint16_length (o : ByteOrder) (buf buf' : list byte) (pos v : Z) :
  PutUint16 o buf pos v = Done buf' -> List.length buf' = List.length buf.
Proof.
  unfold PutUint16, slice_from, slice.
  destruct ((0 <=? pos) && (pos <=? len buf) && (len buf <=? len buf)) eqn:E;
    cbn [go_bind]; [|discriminate].
  apply andb_true_iff in E as [E _]. apply andb_true_iff in E as [E1 E2].
  match goal with |- context [?c <? 2] => destruct (Z.ltb_spec c 2) as [|Hc] end;
    [discriminate|].
  intros H. injection H as <-.
  unfold len in Hc. rewrite List.length_firstn, List.length_skipn in Hc.
  apply length_write_at. rewrite length_put16. unfold len in *. lia.
Qed.

Lemma copy_length (buf buf' src : list byte) (pos : Z) :
  copy buf pos src = Done buf' -> List.length buf' = List.length buf.
Proof.
  unfold copy, slice_from, slice.
  destruct ((0 <=? pos) && (pos <=? len buf) && (len buf <=? len buf)) eqn:E;
    cbn [go_bind]; [|discriminate].
  apply andb_true_iff in E as [E _]. apply andb_true_iff in E as [E1 E2].
  intros H. injection H as <-.
  apply length_write_at. rewrite List.length_firstn.
  unfold len in *. rewrite List.length_firstn, List.length_skipn. lia.
Qed.

Lemma get16_put16 (o : ByteOrder) (v : Z) :
  0 <= v < 65536 ->
  match put16 o v with
  | [b0; b1] => XAuth.get16 o b0 b1 = v
  | _ => False
  end.
Proof.
  intros Hv. destruct o; cbn [put16 XAuth.get16];
    rewrite !byteZ_of_Z, Z.shiftr_div_pow2 by lia;
    change (2 ^ 8) with 256;
    rewrite (Z.mod_small (v / 256)) by (split; [apply Z.div_pos | apply Z.div_lt_upper_bound]; lia);
    pose proof (Z.div_mod v 256 ltac:(lia)); lia.
Qed.

End BinaryFacts.

(** ** The authority record *)

Section XAuthFacts.
Import Hex Binary XAuth.

Lemma isLittleEndian_order (h : Host) :
  isLittleEndian h =
    match hostOrder h with LittleEndian => true | BigEndian => false end.
Proof. unfold isLittleEndian. destruct (hostOrder h); reflexivity. Qed.

Lemma PutUint16_native (h : Host) (buf : list byte) (pos v : Z) :
  (if isLittleEndian h
   then PutUint16 LittleEndian buf pos v
   else PutUint16 BigEndian buf pos v) = PutUint16 (hostOrder h) buf pos v.
Proof. rewrite isLittleEndian_order. destruct (hostOrder h); reflexivity. Qed.

Ltac lengths :=
  unfold len, slen, make in *;
  rewrite ?List.length_app, ?List.length_skipn, ?List.repeat_length,
    ?length_put16, ?length_list_byte_of_string;
  cbn [List.length]; lia.

(** When the whole record fits 16-bit arithmetic, the buffer is the
    record's fields laid out one after the other. *)
Lemma prepareXAuthority_layout (h : Host) (request : X11) (seat : Z)
    (hostname : string) (data : list byte) :
  osHostname h = Ok hostname ->
  DecodeString (AuthData request) = (data, None) ->
  record_size hostname seat (AuthProtocol request) data <= 65535 ->
  prepareXAuthority h request seat
  = Done (Ok (layout (hostOrder h) hostname (Itoa seat) (AuthProtocol request) data)).
Proof.
  intros Hhost Hdec Hfit. unfold prepareXAuthority, record_size in *.
  rewrite Hdec, Hhost. cbv zeta.
  remember (slen hostname) as a eqn:Ea.
  remember (slen (Itoa seat)) as n eqn:En.
  remember (slen (AuthProtocol request)) as m eqn:Em.
  remember (len data) as d eqn:Ed.
  assert (Ha : 0 <= a) by (subst a; unfold slen; lia).
  assert (Hn : 0 <= n) by (subst n; unfold slen; lia).
  assert (Hm : 0 <= m) by (subst m; unfold slen; lia).
  assert (Hd : 0 <= d) by (subst d; unfold len; lia).
  rewrite (u16_small a), (u16_small n), (u16_small m), (u16_small d) by lia.
  rewrite (u16_small (a + n)) by lia.
  rewrite (u16_small (a + n + m)) by lia.
  rewrite (u16_small (a + n + m + d)) by lia.
  rewrite (u16_small (a + n + m + d + 10)) by lia.
  rewrite (u16_small 0), (u16_small AF_LOCAL) by (unfold AF_LOCAL; lia).
  rewrite (u16_small (0 + 2)) by lia.
  rewrite (u16_small (0 + 2 + 2)) by lia.
  rewrite (u16_small (0 + 2 + 2 + a)) by lia.
  rewrite (u16_small (0 + 2 + 2 + a + 2)) by lia.
  rewrite (u16_small (0 + 2 + 2 + a + 2 + n)) by lia.
  rewrite (u16_small (0 + 2 + 2 + a + 2 + n + 2)) by lia.
  rewrite (u16_small (0 + 2 + 2 + a + 2 + n + 2 + m)) by lia.
  rewrite (u16_small (0 + 2 + 2 + a + 2 + n + 2 + m + 2)) by lia.
  rewrite PutUint16_native.
  change (make (a + n + m + d + 10)) with ([] ++ make (a + n + m + d + 10)).
  rewrite PutUint16_app by lengths. cbn [go_bind].
  rewrite PutUint16_app by lengths. cbn [go_bind].
  rewrite copy_app by lengths. cbn [go_bind].
  rewrite PutUint16_app by lengths. cbn [go_bind].
  rewrite copy_app by lengths. cbn [go_bind].
  rewrite PutUint16_app by lengths. cbn [go_bind].
  rewrite copy_app by lengths. cbn [go_bind].
  rewrite PutUint16_app by lengths. cbn [go_bind].
  rewrite copy_app by lengths. cbn [go_bind].
  match goal with
  | |- Done (Ok (_ ++ ?rest)) = _ =>
      assert (Hrest : rest = []) by (apply List.length_zero_iff_nil; lengths);
      rewrite Hrest
  end.
  unfold layout. rewrite List.app_nil_r. cbn [app]. subst a n m d.
  now rewrite <- !List.app_assoc.
Qed.

Lemma readField_put (f rest : list byte) :
  len f < 65536 ->
  readField (put16 BigEndian (len f) ++ f ++ rest) = Some (len f, f, rest).
Proof.
  intros Hf. pose proof (len_nonneg f) as Hf0.
  pose proof (get16_put16 BigEndian (len f) ltac:(lia)) as Hg.
  cbn [put16 app] in *. unfold readField. rewrite Hg.
  rewrite len_app.
  destruct (Z.leb_spec (len f) (len f + len rest)) as [_|Hc];
    [|pose proof (len_nonneg rest); lia].
  rewrite to_nat_len, take_app_length, drop_app_length. reflexivity.
Qed.

(** Reading a laid-out record gives the fields back. *)
Lemma readXAuthority_layout (o : ByteOrder) (hostname number name : string)
    (data : list byte) :
  slen hostname < 65536 -> slen number < 65536 -> slen name < 65536 ->
  len data < 65536 ->
  readXAuthority o (layout o hostname number name data)
  = Some ({| Family := AF_LOCAL;
             AddrLen := slen hostname; Addr := hostname;
             NumberLen := slen number; Number := number;
             NameLen := slen name; Name := name;
             DataLen := len data; Data := string_of_list_byte data |}, []).
Proof.
  intros Ha Hn Hm Hd. unfold layout.
  pose proof (get16_put16 o AF_LOCAL ltac:(unfold AF_LOCAL; lia)) as Hfam.
  destruct (put16 o AF_LOCAL) as [|f0 [|f1 [|]]] eqn:Ef; try contradiction.
  cbn [app]. unfold readXAuthority.
  rewrite <- !len_list_byte_of_string in *.
  rewrite readField_put by assumption.
  rewrite readField_put by assumption.
  rewrite readField_put by assumption.
  rewrite <- (List.app_nil_r data) at 2.
  rewrite readField_put by assumption.
  rewrite Hfam, !string_of_list_byte_of_string. reflexivity.
Qed.

(** A buffer that is returned has the wrapped size, whatever the fields. *)
Lemma prepareXAuthority_length (h : Host) (request : X11) (seat : Z)
    (hostname : string) (data buf : list byte) :
  osHostname h = Ok hostname ->
  DecodeString (AuthData request) = (data, None) ->
  prepareXAuthority h request seat = Done (Ok buf) ->
  len buf = u16 (record_size hostname seat (AuthProtocol request) data).
Proof.
  intros Hhost Hdec. unfold prepareXAuthority. rewrite Hdec, Hhost. cbv zeta.
  rewrite PutUint16_native.
  repeat match goal with
  | |- context [go_bind (PutUint16 ?o ?b ?p ?v)] =>
      let E := fresh "E" in
      destruct (PutUint16 o b p v) eqn:E; cbn [go_bind]; [|discriminate];
      apply PutUint16_length in E
  | |- context [go_bind (copy ?b ?p ?s)] =>
      let E := fresh "E" in
      destruct (copy b p s) eqn:E; cbn [go_bind]; [|discriminate];
      apply copy_length in E
  end.
  intros H. injection H as <-.
  unfold len at 1.
  repeat match goal with E : List.length _ = List.length _ |- _ =>
    rewrite E; clear E end.
  unfold make. rewrite List.repeat_length.
  rewrite Z2Nat.id by apply u16_range.
  unfold record_size, u16. Z.div_mod_to_equations. lia.
Qed.

End XAuthFacts.

(** ** The authority record: round trip, byte order, 16-bit wrap-around *)

Section XAuthClaims.
Import Hex Binary XAuth Samples.

(** C3 (as amended).  When the record of the four values fits 16-bit
    sizes (its fields and the 10 header bytes total at most 65535
    bytes), [prepareXAuthority] returns a buffer, and reading that buffer
    field by field gives back the host name, the decimal string of the
    display number (which reads back as that number), the protocol name
    and the raw authentication bytes, with nothing left over.  The
    authentication data may have any length within that bound, 0, 16 and
    256 bytes included. *)
Theorem prepareXAuthority_roundtrip (h : Host) (request : X11) (seat : Z)
    (hostname : string) (data : list byte) :
  osHostname h = Ok hostname ->
  DecodeString (AuthData request) = (data, None) ->
  record_size hostname seat (AuthProtocol request) data <= 65535 ->
  exists (buf : list byte) (r : XAuthority),
    prepareXAuthority h request seat = Done (Ok buf)
    /\ readXAuthority (hostOrder h) buf = Some (r, [])
    /\ Addr r = hostname
    /\ Number r = Itoa seat /\ Atoi (Number r) = Some seat
    /\ Name r = AuthProtocol request
    /\ list_byte_of_string (Data r) = data.
Proof.
  intros Hhost Hdec Hfit.
  eexists. eexists. split.
  { apply (prepareXAuthority_layout h request seat hostname data); assumption. }
  unfold record_size in Hfit.
  assert (0 <= slen hostname) by (unfold slen; lia).
  assert (0 <= slen (Itoa seat)) by (unfold slen; lia).
  assert (0 <= slen (AuthProtocol request)) by (unfold slen; lia).
  pose proof (len_nonneg data).
  split.
  { apply readXAuthority_layout; lia. }
  cbn [Addr Number Name Data].
  rewrite Atoi_Itoa, list_byte_of_string_of_list_byte.
  repeat split; reflexivity.
Qed.

Lemma prepareXAuthority_roundtrip_witness :
  osHostname host_le = Ok "h"%string
  /\ DecodeString (AuthData mit_request) = (cookie 16, None)
  /\ record_size "h" 10 (AuthProtocol mit_request) (cookie 16) <= 65535
  /\ exists (buf : list byte) (r : XAuthority),
       prepareXAuthority host_le mit_request 10 = Done (Ok buf)
       /\ readXAuthority (hostOrder host_le) buf = Some (r, [])
       /\ Addr r = "h"%string
       /\ Number r = Itoa 10 /\ Atoi (Number r) = Some 10
       /\ Name r = AuthProtocol mit_request
       /\ list_byte_of_string (Data r) = cookie 16.
Proof.
  split; [reflexivity|]. split; [vm_compute; reflexivity|].
  split; [vm_compute; discriminate|].
  apply (prepareXAuthority_roundtrip host_le mit_request 10 "h" (cookie 16));
    [reflexivity | vm_compute; reflexivity | vm_compute; discriminate].
Defined.

Lemma req_long_name_decodes : DecodeString (AuthData req_long_name) = ([], None).
Proof. vm_compute. reflexivity. Qed.

Lemma req_long_name_record :
  prepareXAuthority host_le req_long_name 10
  = Done (Ok [x01; x00; x00; x01; "h"%byte; x00; x02; "1"%byte; "0"%byte;
              x00; x00; x00; x00]).
Proof. vm_compute. reflexivity. Qed.

Lemma req_long_name_reads :
  option_map (fun p => Name (fst p))
    (readXAuthority LittleEndian
       [x01; x00; x00; x01; "h"%byte; x00; x02; "1"%byte; "0"%byte;
        x00; x00; x00; x00]) = Some ""%string.
Proof. vm_compute. reflexivity. Qed.

Lemma req_long_name_length : slen (AuthProtocol req_long_name) = 65536.
Proof. vm_compute. reflexivity. Qed.

(** C3 as stated fails: a protocol name of 65536 bytes with empty
    authentication data gets the length prefix 0, and the record reads
    back with an empty name. *)
Lemma roundtrip_fails_for_long_name :
  ~ (forall (h : Host) (request : X11) (seat : Z) (hostname : string)
            (data : list byte),
       osHostname h = Ok hostname ->
       DecodeString (AuthData request) = (data, None) ->
       0 <= seat ->
       len data = 0 \/ len data = 16 \/ len data = 256 ->
       exists (buf : list byte) (r : XAuthority) (rest : list byte),
         prepareXAuthority h request seat = Done (Ok buf)
         /\ readXAuthority (hostOrder h) buf = Some (r, rest)
         /\ Addr r = hostname /\ Number r = Itoa seat
         /\ Name r = AuthProtocol request
         /\ list_byte_of_string (Data r) = data).
Proof.
  intros H.
  destruct (H host_le req_long_name 10 "h"%string [])
    as (buf & r & rest & Hp & Hr & _ & _ & Hname & _).
  - reflexivity.
  - apply req_long_name_decodes.
  - lia.
  - left. reflexivity.
  - rewrite req_long_name_record in Hp. injection Hp as <-.
    pose proof req_long_name_reads as Hn.
    change (hostOrder host_le) with LittleEndian in Hr.
    rewrite Hr in Hn. cbn [option_map fst] in Hn. injection Hn as Hn.
    pose proof req_long_name_length as Hl.
    rewrite <- Hname, Hn in Hl. discriminate Hl.
Qed.

Lemma be16_at_drop (pre rest : list byte) (pos : Z) :
  len pre <= pos -> be16_at (pre ++ rest) pos = be16_at rest (pos - len pre).
Proof.
  intros Hp. unfold be16_at. unfold len in *.
  rewrite List.skipn_app, List.skipn_all2 by lia. cbn [app].
  now replace (Z.to_nat pos - List.length pre)%nat
    with (Z.to_nat (pos - Z.of_nat (List.length pre))) by lia.
Qed.

Lemma be16_at_head (rest : list byte) (v pos : Z) :
  pos = 0 -> 0 <= v < 65536 -> be16_at (put16 BigEndian v ++ rest) pos = Some v.
Proof.
  intros -> Hv. unfold be16_at.
  pose proof (get16_put16 BigEndian v Hv) as Hg.
  change (put16 BigEndian v) with [byte_of_Z (Z.shiftr v 8); byte_of_Z v] in *.
  change (Z.to_nat 0) with 0%nat. cbn [app skipn]. unfold get16 in Hg.
  now rewrite Hg.
Qed.

(** C4 (as amended).  In a record whose fields fit 16-bit sizes, the
    first two bytes are the family 1 in the host's byte order ([01 00]
    on a little-endian host, [00 01] on a big-endian one), and the two
    bytes before each of the four fields are the field's length with the
    high byte first. *)
Theorem family_native_prefixes_big_endian (h : Host) (request : X11)
    (seat : Z) (hostname : string) (data : list byte) :
  osHostname h = Ok hostname ->
  DecodeString (AuthData request) = (data, None) ->
  record_size hostname seat (AuthProtocol request) data <= 65535 ->
  exists buf : list byte,
    prepareXAuthority h request seat = Done (Ok buf)
    /\ firstn 2 buf = match hostOrder h with
                      | LittleEndian => [x01; x00]
                      | BigEndian => [x00; x01]
                      end
    /\ be16_at buf 2 = Some (slen hostname)
    /\ be16_at buf (4 + slen hostname) = Some (slen (Itoa seat))
    /\ be16_at buf (6 + slen hostname + slen (Itoa seat))
       = Some (slen (AuthProtocol request))
    /\ be16_at buf (8 + slen hostname + slen (Itoa seat)
                      + slen (AuthProtocol request))
       = Some (len data).
Proof.
  intros Hhost Hdec Hfit.
  eexists. split.
  { apply (prepareXAuthority_layout h request seat hostname data); assumption. }
  unfold record_size in Hfit.
  set (name := AuthProtocol request) in *. set (number := Itoa seat) in *.
  assert (Ha : 0 <= slen hostname) by (unfold slen; lia).
  assert (Hn : 0 <= slen number) by (unfold slen; lia).
  assert (Hm : 0 <= slen name) by (unfold slen; lia).
  pose proof (len_nonneg data) as Hd.
  pose proof (len_list_byte_of_string hostname) as La.
  pose proof (len_list_byte_of_string number) as Ln.
  pose proof (len_list_byte_of_string name) as Lm.
  assert (Lf : len (put16 (hostOrder h) AF_LOCAL) = 2)
    by (unfold len; now rewrite length_put16).
  assert (Lp : forall v, len (put16 BigEndian v) = 2) by reflexivity.
  unfold layout. repeat split.
  - destruct (hostOrder h); reflexivity.
  - rewrite be16_at_drop by lia. apply be16_at_head; lia.
  - do 3 (rewrite be16_at_drop by (rewrite ?Lp; lia)).
    apply be16_at_head; rewrite ?Lp; lia.
  - do 5 (rewrite be16_at_drop by (rewrite ?Lp; lia)).
    apply be16_at_head; rewrite ?Lp; lia.
  - do 7 (rewrite be16_at_drop by (rewrite ?Lp; lia)).
    apply be16_at_head; rewrite ?Lp; lia.
Qed.

Lemma family_native_prefixes_big_endian_witness :
  osHostname host_le = Ok "h"%string
  /\ DecodeString (AuthData mit_request) = (cookie 16, None)
  /\ record_size "h" 10 (AuthProtocol mit_request) (cookie 16) <= 65535
  /\ exists buf : list byte,
       prepareXAuthority host_le mit_request 10 = Done (Ok buf)
       /\ firstn 2 buf = match hostOrder host_le with
                         | LittleEndian => [x01; x00]
                         | BigEndian => [x00; x01]
                         end
       /\ be16_at buf 2 = Some (slen "h")
       /\ be16_at buf (4 + slen "h") = Some (slen (Itoa 10))
       /\ be16_at buf (6 + slen "h" + slen (Itoa 10))
          = Some (slen (AuthProtocol mit_request))
       /\ be16_at buf (8 + slen "h" + slen (Itoa 10)
                         + slen (AuthProtocol mit_request))
          = Some (len (cookie 16)).
Proof.
  split; [reflexivity|]. split; [vm_compute; reflexivity|].
  split; [vm_compute; discriminate|].
  apply (family_native_prefixes_big_endian host_le mit_request 10 "h" (cookie 16));
    [reflexivity | vm_compute; reflexivity | vm_compute; discriminate].
Defined.

Lemma req_wrap_family_record :
  prepareXAuthority host_le req_wrap_family 10
  = Done (Ok [x00; x09; x5a; x5a; x5a; x5a; x5a; x5a; x5a; x5a; x5a]).
Proof. vm_compute. reflexivity. Qed.

(** C4 as stated fails: with a protocol name of 65525 bytes and 9 bytes
    of authentication data the write position wraps to 0, the last length
    prefix lands on the family field, and the returned record starts
    with [00 09] on a little-endian host. *)
Lemma family_overwritten_on_wrap :
  ~ (forall (h : Host) (request : X11) (seat : Z) (buf : list byte),
       prepareXAuthority h request seat = Done (Ok buf) ->
       firstn 2 buf = match hostOrder h with
                      | LittleEndian => [x01; x00]
                      | BigEndian => [x00; x01]
                      end).
Proof.
  intros H.
  specialize (H host_le req_wrap_family 10 _ req_wrap_family_record).
  discriminate H.
Qed.

(** The sizes never make [prepareXAuthority] return an error: with the
    host name and the hexadecimal data in order it returns a buffer or
    panics. *)
Lemma prepareXAuthority_no_size_error (h : Host) (request : X11) (seat : Z)
    (hostname : string) (data : list byte) (e : error) :
  osHostname h = Ok hostname ->
  DecodeString (AuthData request) = (data, None) ->
  prepareXAuthority h request seat <> Done (Err e).
Proof.
  intros Hhost Hdec. unfold prepareXAuthority. rewrite Hdec, Hhost. cbv zeta.
  rewrite PutUint16_native.
  repeat match goal with
  | |- context [go_bind (PutUint16 ?o ?b ?p ?v)] =>
      destruct (PutUint16 o b p v); cbn [go_bind]; [|discriminate]
  | |- context [go_bind (copy ?b ?p ?s)] =>
      destruct (copy b p s); cbn [go_bind]; [|discriminate]
  end.
  discriminate.
Qed.

Lemma req_long_data_decodes :
  DecodeString (AuthData req_long_data) = (cookie 65537, None).
Proof. apply DecodeString_EncodeToString. Qed.

Lemma req_long_data_record :
  prepareXAuthority host_le req_long_data 10
  = Done (Ok (layout LittleEndian "h" "10" "MIT-MAGIC-COOKIE-1" [x5a])).
Proof. vm_compute. reflexivity. Qed.

Lemma req_panic_decodes :
  DecodeString (AuthData req_panic) = (cookie 65530, None).
Proof. apply DecodeString_EncodeToString. Qed.

Lemma req_panic_panics :
  prepareXAuthority host_le req_panic 10 = Panic (SliceBounds 9 7 7).
Proof. vm_compute. reflexivity. Qed.

(** C10.  Field lengths and the buffer size are 16-bit.  With 65537
    bytes of authentication data the data length prefix is 1 and the
    returned record holds a single byte of the data: a truncated record
    and no error.  With 65530 bytes of data (fields summing to 65533) the
    buffer has 7 bytes and the function panics on a slice beyond it. *)
Theorem prepareXAuthority_wraps_16_bits :
  (exists (data buf : list byte) (r : XAuthority),
     DecodeString (AuthData req_long_data) = (data, None)
     /\ len data = 65537
     /\ prepareXAuthority host_le req_long_data 10 = Done (Ok buf)
     /\ len buf = u16 (record_size "h" 10 (AuthProtocol req_long_data) data)
     /\ len buf = 32
     /\ readXAuthority LittleEndian buf = Some (r, [])
     /\ DataLen r = u16 (len data) /\ DataLen r = 1
     /\ list_byte_of_string (Data r) = firstn 1 data)
  /\ (exists (data : list byte) (p : panic),
        DecodeString (AuthData req_panic) = (data, None)
        /\ len data = 65530
        /\ 65525 < slen "h" + slen (Itoa 10) + slen (AuthProtocol req_panic)
                    + len data
        /\ prepareXAuthority host_le req_panic 10 = Panic p).
Proof.
  split.
  - exists (cookie 65537).
    exists (layout LittleEndian "h" "10" "MIT-MAGIC-COOKIE-1" [x5a]).
    eexists.
    split; [apply req_long_data_decodes|].
    split; [vm_compute; reflexivity|].
    split; [apply req_long_data_record|].
    split; [vm_compute; reflexivity|].
    split; [vm_compute; reflexivity|].
    split; [vm_compute; reflexivity|].
    split; [vm_compute; reflexivity|].
    split; vm_compute; reflexivity.
  - exists (cookie 65530), (SliceBounds 9 7 7).
    split; [apply req_panic_decodes|].
    split; [vm_compute; reflexivity|].
    split; [vm_compute; reflexivity|].
    apply req_panic_panics.
Qed.

End XAuthClaims.

(** ** The display allocator *)

Section AllocFacts.
Import Sys XAuth Alloc Samples.

Lemma candidates_S (i : Z) (n : nat) :
  candidates i (S n)
  = (X11DisplayBasePort + X11DisplayOffset + i) :: candidates (i + 1) n.
Proof.
  unfold candidates. cbn [seq map]. f_equal; [lia|].
  rewrite <- List.seq_shift, List.map_map.
  apply List.map_ext. intros k. lia.
Qed.

Lemma with_log_nil (os : OS) : with_log os [] = os.
Proof. destruct os. unfold with_log. cbn. now rewrite List.app_nil_r. Qed.

Lemma with_log_Println (os : OS) (e : error) (es : list error) :
  with_log (Println e os) es = with_log os (e :: es).
Proof.
  unfold Println, with_log. cbn. now rewrite <- List.app_assoc.
Qed.

(** Candidates that are taken are logged and skipped. *)
Lemma attempts_skip (h : Host) (request : X11) (xauthFile : File)
    (err : option error) (j n : nat) :
  forall (i : Z) (os : OS),
    list_to_set (candidates i j) ⊆ bound os ->
    attempts h request xauthFile err (j + n) i os
    = attempts h request xauthFile err n (i + Z.of_nat j)
        (with_log os (map ErrAddrInUse (candidates i j))).
Proof.
  induction j as [|j IH]; intros i os Hbusy.
  - cbn [Nat.add candidates seq map]. rewrite with_log_nil.
    now replace (i + Z.of_nat 0) with i by lia.
  - rewrite candidates_S in *. cbn [Nat.add attempts].
    unfold Listen at 1.
    destruct (decide ((X11DisplayBasePort + X11DisplayOffset + i) ∈ bound os))
      as [_|Hfree]; [|exfalso; apply Hfree; set_solver].
    rewrite IH by (cbn; set_solver).
    rewrite with_log_Println. cbn [map].
    now replace (i + 1 + Z.of_nat j) with (i + Z.of_nat (S j)) by lia.
Qed.

Lemma attempts_exhausted (h : Host) (request : X11) (xauthFile : File)
    (err : option error) (n : nat) (i : Z) (os : OS) :
  list_to_set (candidates i n) ⊆ bound os ->
  attempts h request xauthFile err n i os
  = (Done (None, None, err),
     Remove (fileName xauthFile)
       (with_log os (map ErrAddrInUse (candidates i n)))).
Proof.
  intros Hbusy.
  replace n with (n + 0)%nat at 1 by lia.
  now rewrite attempts_skip.
Qed.

(** C1 (the code departs from the claim).  When all 50 candidate ports
    are taken, [NewX11Forwarder] logs the 50 bind errors, the last one
    for port 6059, removes the temporary file, and returns [nil] for the
    listener, the file and the error: the bind errors live in the loop
    body's own [err], and the function's [err] still holds the [nil] of
    [os.CreateTemp]. *)
Theorem NewX11Forwarder_exhausted_returns_nil_error (h : Host) (request : X11)
    (os : OS) (name : string) :
  osCreateTemp h = Ok name ->
  list_to_set (candidates 0 50) ⊆ bound os ->
  exists os' : OS,
    NewX11Forwarder h request os = (Done (None, None, None), os')
    /\ fs os' !! name = None
    /\ bound os' = bound os
    /\ logged os' = logged os ++ map ErrAddrInUse (candidates 0 50)
    /\ List.last (logged os') ErrClosed = ErrAddrInUse 6059.
Proof.
  intros Htemp Hbusy. unfold NewX11Forwarder, CreateTemp. rewrite Htemp.
  rewrite attempts_exhausted by exact Hbusy.
  eexists. split; [reflexivity|]. cbn [fs bound logged Remove with_log fileName].
  split; [apply lookup_delete_eq|]. split; [reflexivity|]. split; [reflexivity|].
  change (candidates 0 50) with (candidates 0 49 ++ [6059]).
  rewrite List.map_app, List.app_assoc. cbn [map]. apply List.last_last.
Qed.

Lemma NewX11Forwarder_exhausted_returns_nil_error_witness :
  osCreateTemp host_le = Ok "/tmp/.Xauthority1"%string
  /\ list_to_set (candidates 0 50) ⊆ bound (os_with (candidates 0 50))
  /\ exists os' : OS,
       NewX11Forwarder host_le mit_request (os_with (candidates 0 50))
       = (Done (None, None, None), os')
       /\ fs os' !! "/tmp/.Xauthority1"%string = None
       /\ bound os' = bound (os_with (candidates 0 50))
       /\ logged os'
          = logged (os_with (candidates 0 50))
            ++ map ErrAddrInUse (candidates 0 50)
       /\ List.last (logged os') ErrClosed = ErrAddrInUse 6059.
Proof.
  split; [reflexivity|]. split; [reflexivity|].
  apply (NewX11Forwarder_exhausted_returns_nil_error host_le mit_request
           (os_with (candidates 0 50)) "/tmp/.Xauthority1");
    reflexivity.
Defined.

(** The state in which the record is built: the temporary file exists,
    the first [i] candidates were logged as taken, candidate [i] is bound. *)
Lemma NewX11Forwarder_first_free (h : Host) (request : X11) (os : OS)
    (name : string) (i : nat) :
  osCreateTemp h = Ok name ->
  (i < 50)%nat ->
  list_to_set (candidates 0 i) ⊆ bound os ->
  (X11DisplayBasePort + X11DisplayOffset + Z.of_nat i) ∉ bound os ->
  let port := X11DisplayBasePort + X11DisplayOffset + Z.of_nat i in
  let ln := {| lnHost := X11DisplayHost; lnPort := port |} in
  let os1 := {| fs := <[name := []]> (fs os);
                bound := {[port]} ∪ bound os;
                logged := logged os ++ map ErrAddrInUse (candidates 0 i) |} in
  NewX11Forwarder h request os
  = match prepareXAuthority h request (X11DisplayOffset + Z.of_nat i) with
    | Panic p => (Panic p, os1)
    | Done (Err e) => (Done (None, None, Some e), Remove name (Close ln os1))
    | Done (Ok buf) =>
        match osWriteFile h with
        | Some e => (Done (None, None, Some e), Remove name (Close ln os1))
        | None =>
            (Done (Some ln, Some {| fileName := name |}, None),
             {| fs := <[name := buf]> (fs os1);
                bound := bound os1; logged := logged os1 |})
        end
    end.
Proof.
  intros Htemp Hi Hbusy Hfree port ln os1.
  unfold NewX11Forwarder, CreateTemp. rewrite Htemp.
  replace 50%nat with (i + S (49 - i))%nat by lia.
  rewrite attempts_skip by exact Hbusy.
  cbn [attempts]. unfold Listen at 1. cbn [bound with_log fileName].
  replace (0 + Z.of_nat i) with (Z.of_nat i) by lia.
  destruct (decide ((X11DisplayBasePort + X11DisplayOffset + Z.of_nat i) ∈ bound os))
    as [Hin|_]; [contradiction|].
  unfold WriteFile. cbn [fs bound logged].
  destruct (prepareXAuthority h request (X11DisplayOffset + Z.of_nat i))
    as [[buf|e]|p]; try reflexivity.
  destruct (osWriteFile h); reflexivity.
Qed.

(** C5 (as amended).  When candidate [i] is the first to bind and
    [prepareXAuthority] returns an error, or returns a buffer that
    [os.WriteFile] fails to write, [NewX11Forwarder] returns that
    error with no listener and no file; afterwards the port is not bound
    (the set of bound ports is what it was before the call) and the
    temporary file does not exist. *)
Theorem NewX11Forwarder_cleans_up_after_bind (h : Host) (request : X11)
    (os : OS) (name : string) (i : nat) (e : error) :
  osCreateTemp h = Ok name ->
  (i < 50)%nat ->
  list_to_set (candidates 0 i) ⊆ bound os ->
  (X11DisplayBasePort + X11DisplayOffset + Z.of_nat i) ∉ bound os ->
  prepareXAuthority h request (X11DisplayOffset + Z.of_nat i) = Done (Err e)
  \/ (exists buf, prepareXAuthority h request (X11DisplayOffset + Z.of_nat i)
                   = Done (Ok buf)
                  /\ osWriteFile h = Some e) ->
  exists os' : OS,
    NewX11Forwarder h request os = (Done (None, None, Some e), os')
    /\ fs os' !! name = None
    /\ ((X11DisplayBasePort + X11DisplayOffset + Z.of_nat i) ∉ bound os')
    /\ bound os' = bound os.
Proof.
  intros Htemp Hi Hbusy Hfree Hfail.
  rewrite (NewX11Forwarder_first_free h request os name i) by assumption.
  assert (Hb : ({[X11DisplayBasePort + X11DisplayOffset + Z.of_nat i]} ∪ bound os)
               ∖ {[X11DisplayBasePort + X11DisplayOffset + Z.of_nat i]}
               = bound os) by set_solver.
  destruct Hfail as [-> | (buf & -> & ->)];
    (eexists; split; [reflexivity|];
     cbn [fs bound Remove Close lnPort];
     split; [apply lookup_delete_eq|]; rewrite Hb; split; [assumption|reflexivity]).
Qed.

Lemma NewX11Forwarder_cleans_up_after_bind_witness :
  osCreateTemp host_ro = Ok "/tmp/.Xauthority1"%string
  /\ (0 < 50)%nat
  /\ list_to_set (candidates 0 0) ⊆ bound (os_with [])
  /\ ((X11DisplayBasePort + X11DisplayOffset + Z.of_nat 0) ∉ bound (os_with []))
  /\ (prepareXAuthority host_ro mit_request (X11DisplayOffset + Z.of_nat 0)
      = Done (Err ErrWriteFile)
      \/ (exists buf,
            prepareXAuthority host_ro mit_request (X11DisplayOffset + Z.of_nat 0)
            = Done (Ok buf)
            /\ osWriteFile host_ro = Some ErrWriteFile))
  /\ exists os' : OS,
       NewX11Forwarder host_ro mit_request (os_with [])
       = (Done (None, None, Some ErrWriteFile), os')
       /\ fs os' !! "/tmp/.Xauthority1"%string = None
       /\ ((X11DisplayBasePort + X11DisplayOffset + Z.of_nat 0) ∉ bound os')
       /\ bound os' = bound (os_with []).
Proof.
  assert (Hp : exists buf,
             prepareXAuthority host_ro mit_request (X11DisplayOffset + Z.of_nat 0)
             = Done (Ok buf)
             /\ osWriteFile host_ro = Some ErrWriteFile)
    by (eexists; split; [vm_compute; reflexivity | reflexivity]).
  split; [reflexivity|]. split; [lia|]. split; [reflexivity|].
  split; [apply not_elem_of_empty|]. split; [right; exact Hp|].
  apply (NewX11Forwarder_cleans_up_after_bind host_ro mit_request (os_with [])
           "/tmp/.Xauthority1" 0 ErrWriteFile);
    [reflexivity | lia | reflexivity | apply not_elem_of_empty | right; exact Hp].
Defined.






(** C5 as stated fails: not every failure after the bind is an error
    return.  With 65530 bytes of authentication data the first candidate
    binds, building the record panics, and afterwards the temporary file
    is still there and the port still bound. *)
Lemma listener_and_file_survive_panic :
  ~ (forall (h : Host) (request : X11) (os : OS) (name : string) (i : nat),
       osCreateTemp h = Ok name ->
       (i < 50)%nat ->
       list_to_set (candidates 0 i) ⊆ bound os ->
       (X11DisplayBasePort + X11DisplayOffset + Z.of_nat i) ∉ bound os ->
       (forall buf,
          prepareXAuthority h request (X11DisplayOffset + Z.of_nat i)
          = Done (Ok buf) ->
          osWriteFile h <> None) ->
       forall (r : go results) (os' : OS),
         NewX11Forwarder h request os = (r, os') ->
         fs os' !! name = None
         /\ (X11DisplayBasePort + X11DisplayOffset + Z.of_nat i) ∉ bound os').
Proof.
  intros H.
  assert (Hp : prepareXAuthority host_le req_panic (X11DisplayOffset + Z.of_nat 0)
               = Panic (SliceBounds 9 7 7)) by exact req_panic_panics.
  assert (Hi : (0 < 50)%nat) by lia.
  assert (Hbusy : list_to_set (candidates 0 0) ⊆ bound (os_with []))
    by reflexivity.
  assert (Hfree : (X11DisplayBasePort + X11DisplayOffset + Z.of_nat 0)
                  ∉ bound (os_with [])) by apply not_elem_of_empty.
  assert (Hfail : forall buf,
             prepareXAuthority host_le req_panic (X11DisplayOffset + Z.of_nat 0)
             = Done (Ok buf) ->
             osWriteFile host_le <> None)
    by (intros buf Hb; rewrite Hp in Hb; discriminate Hb).
  pose proof (NewX11Forwarder_first_free host_le req_panic (os_with [])
                "/tmp/.Xauthority1" 0 eq_refl Hi Hbusy Hfree) as Hrun.
  cbv zeta in Hrun. rewrite Hp in Hrun.
  destruct (H host_le req_panic (os_with []) "/tmp/.Xauthority1" 0%nat
              eq_refl Hi Hbusy Hfree Hfail _ _ Hrun) as [Hfile Hport].
  apply Hport. cbn [bound]. set_solver.
Qed.

(** X14.  A panic while the record is built (the 16-bit wrap-around of
    [prepareXAuthority]) leaves the listener bound and the temporary file
    in place: the cleanup runs on error returns only. *)
Lemma NewX11Forwarder_panic_leaves_state (h : Host) (request : X11) (os : OS)
    (name : string) (i : nat) (p : panic) :
  osCreateTemp h = Ok name ->
  (i < 50)%nat ->
  list_to_set (candidates 0 i) ⊆ bound os ->
  (X11DisplayBasePort + X11DisplayOffset + Z.of_nat i) ∉ bound os ->
  prepareXAuthority h request (X11DisplayOffset + Z.of_nat i) = Panic p ->
  exists os' : OS,
    NewX11Forwarder h request os = (Panic p, os')
    /\ fs os' !! name = Some []
    /\ (X11DisplayBasePort + X11DisplayOffset + Z.of_nat i) ∈ bound os'.
Proof.
  intros Htemp Hi Hbusy Hfree Hp.
  rewrite (NewX11Forwarder_first_free h request os name i) by assumption.
  rewrite Hp. eexists. split; [reflexivity|]. cbn [fs bound].
  split; [apply lookup_insert_eq | set_solver].
Qed.

End AllocFacts.

(** ** The forwarding engine *)

Section EngineFacts.
Import Sys Engine Samples.

Lemma removals_app (a b : list action) :
  removals (a ++ b) = (removals a + removals b)%nat.
Proof. unfold removals. now rewrite List.filter_app, List.length_app. Qed.


(** Connections are accepted and handed to their goroutines one by one. *)
Lemma acceptLoop_connects (l : Listener) (xauth : File) (cs : list Conn)
    (rest : list event) (os : OS) :
  lnPort l ∈ bound os ->
  forall done : list action,
    acceptLoop l xauth (map Connects cs ++ rest) os done
    = acceptLoop l xauth rest os (done ++ map Spawned cs).
Proof.
  intros Hopen. induction cs as [|c cs IH]; intros done.
  - cbn [map app]. now rewrite List.app_nil_r.
  - cbn [map app acceptLoop Accept].
    destruct (decide (lnPort l ∈ bound os)) as [_|Hc]; [|contradiction].
    rewrite IH. now rewrite <- List.app_assoc.
Qed.


(** At an [Accept] failure the loop returns and the deferred removal runs. *)
Lemma acceptLoop_first_failure (l : Listener) (xauth : File) (e : event)
    (rest : list event) (os : OS) (done : list action) :
  lnPort l ∈ bound os ->
  is_failure e = true ->
  acceptLoop l xauth (e :: rest) os done
  = (Stopped, done ++ [Removed (fileName xauth)],
     Remove (fileName xauth) (Accept l e os).2).
Proof.
  intros Hopen Hfail. cbn [acceptLoop].
  destruct (decide (lnPort l ∈ bound os)) as [_|Hc]; [|contradiction].
  destruct e as [c|code|]; [discriminate Hfail| |]; reflexivity.
Qed.

(** The file is never removed twice, whatever happens at the listener. *)
Lemma acceptLoop_removes_at_most_once (l : Listener) (xauth : File)
    (pending : list event) :
  forall (os : OS) (done : list action),
    (removals (acceptLoop l xauth pending os done).1.2 <= removals done + 1)%nat.
Proof.
  induction pending as [|e pending IH]; intros os done; cbn [acceptLoop].
  - destruct (decide (lnPort l ∈ bound os)); cbn [fst snd];
      rewrite ?removals_app; cbn; lia.
  - destruct (decide (lnPort l ∈ bound os)); cbn [fst snd];
      [|rewrite removals_app; cbn; lia].
    destruct e as [c|code|]; cbn [Accept fst snd];
      [|rewrite removals_app; cbn; lia ..].
    specialize (IH os (done ++ [Spawned c])).
    rewrite removals_app in IH. cbn in IH. lia.
Qed.




End EngineFacts.

(** ** The payload parsers and the wire format *)

Section WireFacts.
Import Parser Wire.

Lemma be32_put32 (v : Z) :
  0 <= v < 4294967296 ->
  be32 (byte_of_Z (Z.shiftr v 24)) (byte_of_Z (Z.shiftr v 16))
       (byte_of_Z (Z.shiftr v 8)) (byte_of_Z v) = v.
Proof.
  intros Hv. unfold be32. rewrite !byteZ_of_Z, !Z.shiftr_div_pow2 by lia.
  change (2 ^ 24) with 16777216. change (2 ^ 16) with 65536.
  change (2 ^ 8) with 256.
  Z.div_mod_to_equations. lia.
Qed.

Lemma put32_be32 (b0 b1 b2 b3 : byte) :
  put32 (be32 b0 b1 b2 b3) = [b0; b1; b2; b3].
Proof.
  pose proof (byteZ_range b0). pose proof (byteZ_range b1).
  pose proof (byteZ_range b2). pose proof (byteZ_range b3).
  unfold put32.
  repeat f_equal; apply byteZ_inj; rewrite byteZ_of_Z;
    rewrite ?Z.shiftr_div_pow2 by lia; unfold be32;
    change (2 ^ 24) with 16777216; change (2 ^ 16) with 65536;
    change (2 ^ 8) with 256; Z.div_mod_to_equations; lia.
Qed.

Lemma len_put32 (v : Z) : len (put32 v) = 4.
Proof. reflexivity. Qed.

Lemma len_wire_string (s : string) : len (wire_string s) = slen s + 4.
Proof.
  unfold wire_string. rewrite len_app, len_put32, len_list_byte_of_string. lia.
Qed.

Lemma parseUint32_put32 (v : Z) (rest : list byte) :
  0 <= v < 4294967296 ->
  parseUint32 (put32 v ++ rest) = Done (v, rest, true).
Proof.
  intros Hv. unfold put32. cbn [app].
  rewrite parseUint32_cons4, be32_put32 by assumption. reflexivity.
Qed.

Lemma parseString_wire (s : string) (rest : list byte) :
  slen s + 4 + len rest < 4294967296 ->
  parseString (wire_string s ++ rest) = Done (s, rest, true).
Proof.
  intros Hlen. pose proof (len_nonneg rest) as Hr.
  assert (Hs : 0 <= slen s) by (unfold slen; lia).
  unfold wire_string, put32. cbn [app]. rewrite <- ?List.app_assoc.
  rewrite parseString_declared;
    rewrite ?be32_put32, ?len_app, ?len_list_byte_of_string by lia; try lia.
  destruct (Z.ltb_spec (slen s + len rest) (slen s)) as [Hc|_]; [lia|].
  rewrite <- len_list_byte_of_string, to_nat_len.
  rewrite take_app_length, drop_app_length, string_of_list_byte_of_string.
  reflexivity.
Qed.

Lemma slen_string_of_list_byte (l : list byte) :
  slen (string_of_list_byte l) = len l.
Proof.
  now rewrite <- len_list_byte_of_string, list_byte_of_string_of_list_byte.
Qed.

Lemma wire_string_of_bytes (l : list byte) :
  wire_string (string_of_list_byte l) = put32 (len l) ++ l.
Proof.
  unfold wire_string.
  now rewrite slen_string_of_list_byte, list_byte_of_string_of_list_byte.
Qed.

(** What [parseString] returns with success is what the buffer starts
    with. *)
Lemma parseString_inv (in_ : list byte) (out : string) (rest : list byte) :
  parseString in_ = Done (out, rest, true) -> in_ = wire_string out ++ rest.
Proof.
  unfold parseString.
  destruct (Z.ltb_spec (len in_) 4) as [|Hlen]; [discriminate|].
  destruct in_ as [|b0 [|b1 [|b2 [|b3 r]]]];
    try (exfalso; unfold len in Hlen; cbn in Hlen; lia).
  rewrite Uint32_cons4. cbn [go_bind].
  pose proof (be32_range b0 b1 b2 b3) as Hn.
  pose proof (put32_be32 b0 b1 b2 b3) as Hput.
  set (n := be32 b0 b1 b2 b3) in *.
  assert (Hl : len (b0 :: b1 :: b2 :: b3 :: r) = len r + 4)
    by (rewrite !len_cons; lia).
  destruct (Z.ltb_spec (u32 (len (b0 :: b1 :: b2 :: b3 :: r))) (u32 (4 + n)))
    as [|_]; [discriminate|].
  unfold slice_from, slice.
  destruct ((0 <=? 4) && (4 <=? u32 (4 + n))
            && (u32 (4 + n) <=? len (b0 :: b1 :: b2 :: b3 :: r))) eqn:E1;
    cbn [go_bind]; [|discriminate].
  apply andb_true_iff in E1 as [E1 E3]. apply andb_true_iff in E1 as [_ E2].
  apply Z.leb_le in E2, E3.
  assert (Hsmall : u32 (4 + n) = 4 + n).
  { destruct (Z.lt_ge_cases (4 + n) 4294967296) as [Hlt|Hge].
    - unfold u32. apply Z.mod_small. lia.
    - exfalso.
      assert (u32 (4 + n) = 4 + n - 4294967296)
        by (unfold u32; symmetry; apply (Z.mod_unique _ _ 1); lia).
      lia. }
  rewrite Hsmall in *. rewrite Hl in *.
  destruct ((0 <=? 4 + n) && (4 + n <=? len r + 4) && (len r + 4 <=? len r + 4))
    eqn:E4; cbn [go_bind]; [|discriminate].
  intros H. injection H as <- <-.
  replace (Z.to_nat (4 + n - 4)) with (Z.to_nat n) by lia.
  replace (Z.to_nat 4) with 4%nat by reflexivity.
  replace (Z.to_nat (4 + n)) with (4 + Z.to_nat n)%nat by lia.
  cbn [skipn Nat.add]. change (skipn 0 r) with r.
  rewrite (List.firstn_all2 (n := Z.to_nat (len r + 4 - (4 + n))))
    by (rewrite List.length_skipn; unfold len; lia).
  rewrite wire_string_of_bytes.
  assert (Hf : len (firstn (Z.to_nat n) r) = n)
    by (unfold len in *; rewrite List.length_firstn; lia).
  rewrite Hf, Hput. cbn [app]. now rewrite List.firstn_skipn.
Qed.

Lemma parseString_failed (in_ : list byte) (out : string) (rest : list byte) :
  parseString in_ = Done (out, rest, false) -> out = ""%string /\ rest = [].
Proof.
  unfold parseString.
  destruct (len in_ <? 4); [intros H; injection H as <- <-; now split|].
  destruct (Uint32 in_) as [n|]; cbn [go_bind]; [|discriminate].
  destruct (u32 (len in_) <? u32 (4 + n));
    [intros H; injection H as <- <-; now split|].
  destruct (slice in_ 4 (u32 (4 + n))); cbn [go_bind]; [|discriminate].
  destruct (slice_from in_ (u32 (4 + n))); cbn [go_bind]; discriminate.
Qed.

Lemma parseUint32_inv (in_ : list byte) (v : Z) (rest : list byte) :
  parseUint32 in_ = Done (v, rest, true) ->
  in_ = put32 v ++ rest /\ 0 <= v < 4294967296.
Proof.
  rewrite parseUint32_decode.
  destruct in_ as [|b0 [|b1 [|b2 [|b3 r]]]]; cbn [decode32]; try discriminate.
  intros H. injection H as <- <-. cbn [skipn].
  split; [now rewrite put32_be32 | apply be32_range].
Qed.

Lemma parseBool_inv (in_ : list byte) (v : bool) (rest : list byte) :
  parseBool in_ = Done (v, rest, true) ->
  exists b : byte, in_ = b :: rest /\ v = (byteZ b =? 1).
Proof.
  destruct in_ as [|b r]; [rewrite parseBool_nil; discriminate|].
  rewrite parseBool_cons. intros H. injection H as <- <-. now exists b.
Qed.

Lemma parseBool_wire (b : bool) (rest : list byte) :
  parseBool (wire_bool b ++ rest) = Done (b, rest, true).
Proof.
  unfold wire_bool. cbn [app]. rewrite parseBool_cons. now destruct b.
Qed.

End WireFacts.

(** ** The parsers against the wire format *)

Section ParserContracts.
Import Parser Wire Samples.

(** X1.  On a buffer below 4 GiB, [parseString] succeeds with a string and
    a remainder exactly when the buffer is that string in wire format
    (32-bit big-endian length, then the bytes) followed by that remainder. *)
Theorem parseString_reads_wire_string (in_ : list byte) (out : string)
    (rest : list byte) :
  len in_ < 4294967296 ->
  (parseString in_ = Done (out, rest, true) <-> in_ = wire_string out ++ rest).
Proof.
  intros Hlen. split; [apply parseString_inv|].
  intros ->. apply parseString_wire.
  rewrite len_app, len_wire_string in Hlen. lia.
Qed.

Lemma parseString_reads_wire_string_witness :
  len (wire_string "xterm" ++ [x2a]) < 4294967296
  /\ (parseString (wire_string "xterm" ++ [x2a]) = Done ("xterm"%string, [x2a], true)
      <-> wire_string "xterm" ++ [x2a] = wire_string "xterm" ++ [x2a]).
Proof.
  split; [vm_compute; reflexivity|].
  apply (parseString_reads_wire_string (wire_string "xterm" ++ [x2a]) "xterm" [x2a]).
  vm_compute. reflexivity.
Defined.

(** X2.  On a buffer below 4 GiB, [parseString] panics exactly when the
    buffer has a length prefix of 2^32-4 or more; otherwise it returns. *)
Theorem parseString_panics_iff (in_ : list byte) :
  len in_ < 4294967296 ->
  ((exists p, parseString in_ = Panic p)
   <-> exists n, decode32 in_ = Some n /\ 4294967296 <= n + 4).
Proof.
  intros Hlen.
  destruct in_ as [|b0 [|b1 [|b2 [|b3 r]]]];
    try (rewrite parseString_short by (unfold len; cbn; lia);
         split; [intros [p Hp]; discriminate Hp
                | intros (n & Hn & _); discriminate Hn]).
  assert (Hl : len (b0 :: b1 :: b2 :: b3 :: r) = len r + 4)
    by (rewrite !len_cons; lia).
  cbn [decode32].
  destruct (Z.lt_ge_cases (be32 b0 b1 b2 b3 + 4) 4294967296) as [Hlt|Hge].
  - rewrite parseString_declared by lia. split.
    + intros [p Hp]. destruct (len r <? be32 b0 b1 b2 b3); discriminate Hp.
    + intros (n & Hn & Hw). injection Hn as <-. lia.
  - rewrite parseString_wraps by lia. split; [|eauto].
    intros _. exists (be32 b0 b1 b2 b3). split; [reflexivity | lia].
Qed.

Lemma parseString_panics_iff_witness :
  len [xff; xff; xff; xfc; x00] < 4294967296
  /\ ((exists p, parseString [xff; xff; xff; xfc; x00] = Panic p)
      <-> exists n, decode32 [xff; xff; xff; xfc; x00] = Some n
                    /\ 4294967296 <= n + 4).
Proof.
  split; [vm_compute; reflexivity|].
  apply (parseString_panics_iff [xff; xff; xff; xfc; x00]).
  vm_compute. reflexivity.
Defined.

(** X3.  [parseUint32] succeeds with a value and a remainder exactly when
    the buffer is the four big-endian bytes of that value, which is below
    2^32, followed by that remainder. *)
Theorem parseUint32_reads_put32 (in_ : list byte) (v : Z) (rest : list byte) :
  parseUint32 in_ = Done (v, rest, true)
  <-> in_ = put32 v ++ rest /\ 0 <= v < 4294967296.
Proof.
  split; [apply parseUint32_inv|].
  intros [-> Hv]. now apply parseUint32_put32.
Qed.

(** X4.  On a payload below 4 GiB, [parsePtyRequest] succeeds with a
    request exactly when the payload is the terminal name as a wire
    string, then width and height as 32-bit numbers, then anything: bytes
    after the three fields are ignored, and a width or height of 0 is
    accepted. *)
Theorem parsePtyRequest_reads_wire_pty (s : list byte) (pty : Pty) :
  len s < 4294967296 ->
  (parsePtyRequest s = Done (pty, true)
   <-> exists more : list byte,
         s = wire_pty pty more
         /\ 0 <= Width (PtyWindow pty) < 4294967296
         /\ 0 <= Height (PtyWindow pty) < 4294967296).
Proof.
  intros Hlen. unfold parsePtyRequest, wire_pty. split.
  - destruct (parseString s) as [[[term s1] ok1]|p] eqn:E1; cbn [go_bind];
      [|discriminate].
    destruct ok1; cbn [negb]; [|discriminate].
    apply parseString_inv in E1.
    destruct (parseUint32 s1) as [[[w s2] ok2]|p] eqn:E2; cbn [go_bind];
      [|discriminate].
    destruct ok2; cbn [negb]; [|discriminate].
    apply parseUint32_inv in E2 as [E2 Hw].
    destruct (parseUint32 s2) as [[[h s3] ok3]|p] eqn:E3; cbn [go_bind];
      [|discriminate].
    destruct ok3; cbn [negb]; [|discriminate].
    apply parseUint32_inv in E3 as [E3 Hh].
    intros H. injection H as <-. cbn [Term PtyWindow Width Height].
    exists s3. subst. repeat split; lia.
  - intros (more & -> & Hw & Hh).
    destruct pty as [term [w h]]. cbn [Term PtyWindow Width Height] in *.
    rewrite !len_app, len_wire_string, !len_put32 in Hlen.
    pose proof (len_nonneg more).
    rewrite parseString_wire by (rewrite !len_app, !len_put32; lia).
    cbn [go_bind negb].
    rewrite parseUint32_put32 by assumption. cbn [go_bind negb].
    rewrite parseUint32_put32 by assumption. reflexivity.
Qed.

Lemma parsePtyRequest_reads_wire_pty_witness :
  len (wire_pty xterm_pty [x2a]) < 4294967296
  /\ (parsePtyRequest (wire_pty xterm_pty [x2a]) = Done (xterm_pty, true)
      <-> exists more : list byte,
            wire_pty xterm_pty [x2a] = wire_pty xterm_pty more
            /\ 0 <= Width (PtyWindow xterm_pty) < 4294967296
            /\ 0 <= Height (PtyWindow xterm_pty) < 4294967296).
Proof.
  split; [vm_compute; reflexivity|].
  apply (parsePtyRequest_reads_wire_pty (wire_pty xterm_pty [x2a]) xterm_pty).
  vm_compute. reflexivity.
Defined.

(** X5.  On a payload below 4 GiB, [parseX11Request] succeeds with a
    request exactly when the payload is one byte, the protocol name and the
    authentication data as wire strings, the screen as a 32-bit number, then
    anything; the single-connection flag is set exactly when the first byte
    is 1. *)
Theorem parseX11Request_reads_wire_x11 (s : list byte) (x11 : X11) :
  len s < 4294967296 ->
  (parseX11Request s = Done (x11, true)
   <-> exists (b : byte) (more : list byte),
         s = b :: wire_string (AuthProtocol x11) ++ wire_string (AuthData x11)
               ++ put32 (ScreenNumber x11) ++ more
         /\ SingleConnection x11 = (byteZ b =? 1)
         /\ 0 <= ScreenNumber x11 < 4294967296).
Proof.
  intros Hlen. unfold parseX11Request. split.
  - destruct (parseBool s) as [[[single s1] ok1]|p] eqn:E1; cbn [go_bind];
      [|discriminate].
    destruct ok1; cbn [negb]; [|discriminate].
    apply parseBool_inv in E1 as (b & E1 & Hb).
    destruct (parseString s1) as [[[protocol s2] ok2]|p] eqn:E2; cbn [go_bind];
      [|discriminate].
    destruct ok2; cbn [negb]; [|discriminate].
    apply parseString_inv in E2.
    destruct (parseString s2) as [[[data s3] ok3]|p] eqn:E3; cbn [go_bind];
      [|discriminate].
    destruct ok3; cbn [negb]; [|discriminate].
    apply parseString_inv in E3.
    destruct (parseUint32 s3) as [[[screen s4] ok4]|p] eqn:E4; cbn [go_bind];
      [|discriminate].
    destruct ok4; cbn [negb]; [|discriminate].
    apply parseUint32_inv in E4 as [E4 Hscreen].
    intros H. injection H as <-.
    cbn [SingleConnection AuthProtocol AuthData ScreenNumber].
    exists b, s4. subst. repeat split; lia.
  - intros (b & more & -> & Hb & Hscreen).
    destruct x11 as [single protocol data screen].
    cbn [SingleConnection AuthProtocol AuthData ScreenNumber] in *.
    rewrite len_cons, !len_app, !len_wire_string, len_put32 in Hlen.
    pose proof (len_nonneg more).
    assert (0 <= slen protocol) by (unfold slen; lia).
    assert (0 <= slen data) by (unfold slen; lia).
    rewrite parseBool_cons. cbn [go_bind negb].
    rewrite parseString_wire
      by (rewrite !len_app, len_wire_string, len_put32; lia).
    cbn [go_bind negb].
    rewrite parseString_wire by (rewrite !len_app, len_put32; lia).
    cbn [go_bind negb].
    rewrite parseUint32_put32 by assumption. cbn [go_bind negb].
    now rewrite Hb.
Qed.

Lemma parseX11Request_reads_wire_x11_witness :
  len (wire_x11 mit_request [x2a]) < 4294967296
  /\ (parseX11Request (wire_x11 mit_request [x2a]) = Done (mit_request, true)
      <-> exists (b : byte) (more : list byte),
            wire_x11 mit_request [x2a]
            = b :: wire_string (AuthProtocol mit_request)
                ++ wire_string (AuthData mit_request)
                ++ put32 (ScreenNumber mit_request) ++ more
            /\ SingleConnection mit_request = (byteZ b =? 1)
            /\ 0 <= ScreenNumber mit_request < 4294967296).
Proof.
  split; [vm_compute; reflexivity|].
  apply (parseX11Request_reads_wire_x11 (wire_x11 mit_request [x2a]) mit_request).
  vm_compute. reflexivity.
Defined.

(** X6.  A request decoder that returns failure returns the zero value of
    its request: no field read before the failing one is handed out. *)
Theorem failed_decode_returns_zero_value (s : list byte) :
  (forall pty, parsePtyRequest s = Done (pty, false) -> pty = zeroPty)
  /\ (forall x11, parseX11Request s = Done (x11, false) -> x11 = zeroX11).
Proof.
  split.
  - intros pty. unfold parsePtyRequest.
    destruct (parseString s) as [[[term s1] ok1]|p]; cbn [go_bind];
      [|discriminate].
    destruct ok1; cbn [negb]; [|now intros H; injection H as <-].
    destruct (parseUint32 s1) as [[[w s2] ok2]|p]; cbn [go_bind];
      [|discriminate].
    destruct ok2; cbn [negb]; [|now intros H; injection H as <-].
    destruct (parseUint32 s2) as [[[h s3] ok3]|p]; cbn [go_bind];
      [|discriminate].
    destruct ok3; cbn [negb]; [discriminate | now intros H; injection H as <-].
  - intros x11. unfold parseX11Request.
    destruct (parseBool s) as [[[single s1] ok1]|p]; cbn [go_bind];
      [|discriminate].
    destruct ok1; cbn [negb]; [|now intros H; injection H as <-].
    destruct (parseString s1) as [[[protocol s2] ok2]|p]; cbn [go_bind];
      [|discriminate].
    destruct ok2; cbn [negb]; [|now intros H; injection H as <-].
    destruct (parseString s2) as [[[data s3] ok3]|p]; cbn [go_bind];
      [|discriminate].
    destruct ok3; cbn [negb]; [|now intros H; injection H as <-].
    destruct (parseUint32 s3) as [[[screen s4] ok4]|p]; cbn [go_bind];
      [|discriminate].
    destruct ok4; cbn [negb]; [discriminate | now intros H; injection H as <-].
Qed.

(** X15.  [parseWinchRequest] succeeds with a window exactly when the
    payload is width and height as 32-bit numbers, both at least 1, then
    anything: bytes after the two fields are ignored. *)
Theorem parseWinchRequest_reads_wire_window (s : list byte) (win : Window) :
  parseWinchRequest s = Done (win, true)
  <-> exists more : list byte,
        s = wire_window win more
        /\ 1 <= Width win < 4294967296
        /\ 1 <= Height win < 4294967296.
Proof.
  unfold parseWinchRequest, wire_window. split.
  - destruct (parseUint32 s) as [[[w s1] ok1]|p] eqn:E1; cbn [go_bind];
      [|discriminate].
    destruct (Z.ltb_spec w 1) as [Hw0|Hw1]; cbn [negb]; [discriminate|].
    destruct ok1; cbn [negb]; [|discriminate].
    apply parseUint32_inv in E1 as [E1 Hw].
    destruct (parseUint32 s1) as [[[h s2] ok2]|p] eqn:E2; cbn [go_bind];
      [|discriminate].
    destruct (Z.ltb_spec h 1) as [Hh0|Hh1]; cbn [negb]; [discriminate|].
    destruct ok2; cbn [negb]; [|discriminate].
    apply parseUint32_inv in E2 as [E2 Hh].
    intros H. injection H as <-. cbn [Width Height].
    exists s2. subst. repeat split; lia.
  - intros (more & -> & Hw & Hh).
    destruct win as [w h]. cbn [Width Height] in *.
    rewrite parseUint32_put32 by lia. cbn [go_bind].
    destruct (Z.ltb_spec w 1) as [Hw0|Hw1]; [lia|]. cbn [negb].
    rewrite parseUint32_put32 by lia. cbn [go_bind].
    destruct (Z.ltb_spec h 1) as [Hh0|Hh1]; [lia|]. reflexivity.
Qed.

End ParserContracts.

(** ** The authority record: errors, size, what a record determines *)

Section XAuthContracts.
Import Hex Binary XAuth Parser Wire Samples.

(** [isLittleEndian] answers true exactly on a little-endian host:
    the byte at the lowest address of the 32-bit number 0x01020304 is 0x04
    there and 0x01 on a big-endian host. *)
Theorem isLittleEndian_iff (h : Host) :
  (isLittleEndian h = true <-> hostOrder h = LittleEndian)
  /\ nth 0 (int32_memory LittleEndian 16909060) x00 = x04
  /\ nth 0 (int32_memory BigEndian 16909060) x00 = x01.
Proof.
  rewrite isLittleEndian_order.
  split; [destruct (hostOrder h); split; congruence|].
  split; reflexivity.
Qed.

(** X7.  [prepareXAuthority] returns an error in two cases only: the
    authentication data is not a hexadecimal string (the decoder's error is
    returned, whatever the host name), or it is and the host name cannot
    be had ([os.Hostname]'s error is returned).  No field size makes it
    return an error. *)
Theorem prepareXAuthority_error_iff (h : Host) (request : X11) (seat : Z)
    (e : error) :
  prepareXAuthority h request seat = Done (Err e)
  <-> (DecodeString (AuthData request)).2 = Some e
      \/ ((DecodeString (AuthData request)).2 = None /\ osHostname h = Err e).
Proof.
  destruct (DecodeString (AuthData request)) as [data [e'|]] eqn:Hdec.
  - unfold prepareXAuthority. rewrite Hdec. cbn [snd]. split.
    + intros H. injection H as <-. now left.
    + intros [H | [H _]]; [injection H as <-; reflexivity | discriminate].
  - destruct (osHostname h) as [hostname|e'] eqn:Hhost; cbn [snd].
    + split.
      * intros H.
        now apply (prepareXAuthority_no_size_error h request seat hostname data e)
          in H.
      * intros [H | [_ H]]; discriminate.
    + unfold prepareXAuthority. rewrite Hdec, Hhost. split.
      * intros H. injection H as <-. now right.
      * intros [H | [_ H]]; [discriminate | injection H as <-; reflexivity].
Qed.

(** X8.  A buffer returned by [prepareXAuthority] has the record's size
    reduced modulo 2^16: never more than 65535 bytes, and exactly the
    fields and their 10 header bytes when that total is at most 65535. *)
Theorem prepareXAuthority_buffer_size (h : Host) (request : X11) (seat : Z)
    (hostname : string) (data buf : list byte) :
  osHostname h = Ok hostname ->
  DecodeString (AuthData request) = (data, None) ->
  prepareXAuthority h request seat = Done (Ok buf) ->
  len buf = record_size hostname seat (AuthProtocol request) data mod 65536
  /\ len buf <= 65535
  /\ (record_size hostname seat (AuthProtocol request) data <= 65535 ->
      len buf = slen hostname + slen (Itoa seat) + slen (AuthProtocol request)
                + len data + 10).
Proof.
  intros Hhost Hdec Hbuf.
  pose proof (prepareXAuthority_length h request seat hostname data buf
                Hhost Hdec Hbuf) as Hl.
  unfold u16 in Hl.
  pose proof (Z.mod_pos_bound
                (record_size hostname seat (AuthProtocol request) data) 65536
                ltac:(lia)) as Hb.
  split; [exact Hl|]. split; [lia|].
  intros Hfit. rewrite Hl. unfold record_size in *.
  apply Z.mod_small. unfold slen, len in *. lia.
Qed.

Lemma prepareXAuthority_buffer_size_witness :
  osHostname host_le = Ok "h"%string
  /\ DecodeString (AuthData req_long_data) = (cookie 65537, None)
  /\ prepareXAuthority host_le req_long_data 10
     = Done (Ok (layout LittleEndian "h" "10" "MIT-MAGIC-COOKIE-1" [x5a]))
  /\ (len (layout LittleEndian "h" "10" "MIT-MAGIC-COOKIE-1" [x5a])
      = record_size "h" 10 (AuthProtocol req_long_data) (cookie 65537) mod 65536
      /\ len (layout LittleEndian "h" "10" "MIT-MAGIC-COOKIE-1" [x5a]) <= 65535
      /\ (record_size "h" 10 (AuthProtocol req_long_data) (cookie 65537) <= 65535 ->
          len (layout LittleEndian "h" "10" "MIT-MAGIC-COOKIE-1" [x5a])
          = slen "h" + slen (Itoa 10) + slen (AuthProtocol req_long_data)
            + len (cookie 65537) + 10)).
Proof.
  split; [reflexivity|].
  split; [apply DecodeString_EncodeToString|].
  split; [vm_compute; reflexivity|].
  apply (prepareXAuthority_buffer_size host_le req_long_data 10 "h"
           (cookie 65537));
    [reflexivity | apply DecodeString_EncodeToString | vm_compute; reflexivity].
Defined.

(** X9.  On one host, records that fit 16-bit sizes and are equal were
    built for the same display number, the same protocol name and the same
    authentication bytes: two displays never share a record. *)
Theorem prepareXAuthority_determines_fields (h : Host) (r1 r2 : X11)
    (seat1 seat2 : Z) (hostname : string) (data1 data2 buf : list byte) :
  osHostname h = Ok hostname ->
  DecodeString (AuthData r1) = (data1, None) ->
  DecodeString (AuthData r2) = (data2, None) ->
  record_size hostname seat1 (AuthProtocol r1) data1 <= 65535 ->
  record_size hostname seat2 (AuthProtocol r2) data2 <= 65535 ->
  prepareXAuthority h r1 seat1 = Done (Ok buf) ->
  prepareXAuthority h r2 seat2 = Done (Ok buf) ->
  seat1 = seat2 /\ AuthProtocol r1 = AuthProtocol r2 /\ data1 = data2.
Proof.
  intros Hhost Hd1 Hd2 Hf1 Hf2 Hb1 Hb2.
  rewrite (prepareXAuthority_layout h r1 seat1 hostname data1) in Hb1
    by assumption.
  rewrite (prepareXAuthority_layout h r2 seat2 hostname data2) in Hb2
    by assumption.
  injection Hb1 as Hb1. injection Hb2 as Hb2.
  unfold record_size in Hf1, Hf2.
  assert (0 <= slen hostname) by (unfold slen; lia).
  assert (0 <= slen (Itoa seat1)) by (unfold slen; lia).
  assert (0 <= slen (Itoa seat2)) by (unfold slen; lia).
  assert (0 <= slen (AuthProtocol r1)) by (unfold slen; lia).
  assert (0 <= slen (AuthProtocol r2)) by (unfold slen; lia).
  pose proof (len_nonneg data1). pose proof (len_nonneg data2).
  pose proof (readXAuthority_layout (hostOrder h) hostname (Itoa seat1)
                (AuthProtocol r1) data1 ltac:(lia) ltac:(lia) ltac:(lia)
                ltac:(lia)) as R1.
  pose proof (readXAuthority_layout (hostOrder h) hostname (Itoa seat2)
                (AuthProtocol r2) data2 ltac:(lia) ltac:(lia) ltac:(lia)
                ltac:(lia)) as R2.
  rewrite Hb1 in R1. rewrite Hb2, R1 in R2.
  injection R2 as _ Hnum _ Hname _ Hdata.
  split.
  - apply (f_equal Atoi) in Hnum. rewrite !Atoi_Itoa in Hnum. congruence.
  - split; [exact Hname|].
    apply (f_equal list_byte_of_string) in Hdata.
    now rewrite !list_byte_of_string_of_list_byte in Hdata.
Qed.

Lemma prepareXAuthority_determines_fields_witness :
  osHostname host_le = Ok "h"%string
  /\ DecodeString (AuthData mit_request) = (cookie 16, None)
  /\ DecodeString (AuthData mit_request_upper)
     = ([x5a; x5a; x5a; x5a; x5a; x5a; x5a; x5a;
         x5a; x5a; x5a; x5a; x5a; x5a; x5a; x5a], None)
  /\ record_size "h" 10 (AuthProtocol mit_request) (cookie 16) <= 65535
  /\ record_size "h" 10 (AuthProtocol mit_request_upper)
       [x5a; x5a; x5a; x5a; x5a; x5a; x5a; x5a;
        x5a; x5a; x5a; x5a; x5a; x5a; x5a; x5a] <= 65535
  /\ prepareXAuthority host_le mit_request 10
     = Done (Ok (layout LittleEndian "h" "10" "MIT-MAGIC-COOKIE-1" (cookie 16)))
  /\ prepareXAuthority host_le mit_request_upper 10
     = Done (Ok (layout LittleEndian "h" "10" "MIT-MAGIC-COOKIE-1" (cookie 16)))
  /\ (10 = 10
      /\ AuthProtocol mit_request = AuthProtocol mit_request_upper
      /\ cookie 16 = [x5a; x5a; x5a; x5a; x5a; x5a; x5a; x5a;
                      x5a; x5a; x5a; x5a; x5a; x5a; x5a; x5a]).
Proof.
  assert (Hd1 : DecodeString (AuthData mit_request) = (cookie 16, None))
    by apply DecodeString_EncodeToString.
  assert (Hd2 : DecodeString (AuthData mit_request_upper)
                = ([x5a; x5a; x5a; x5a; x5a; x5a; x5a; x5a;
                    x5a; x5a; x5a; x5a; x5a; x5a; x5a; x5a], None))
    by (vm_compute; reflexivity).
  assert (Hf1 : record_size "h" 10 (AuthProtocol mit_request) (cookie 16) <= 65535)
    by (vm_compute; discriminate).
  assert (Hf2 : record_size "h" 10 (AuthProtocol mit_request_upper)
                  [x5a; x5a; x5a; x5a; x5a; x5a; x5a; x5a;
                   x5a; x5a; x5a; x5a; x5a; x5a; x5a; x5a] <= 65535)
    by (vm_compute; discriminate).
  assert (Hb1 : prepareXAuthority host_le mit_request 10
                = Done (Ok (layout LittleEndian "h" "10" "MIT-MAGIC-COOKIE-1"
                              (cookie 16))))
    by (vm_compute; reflexivity).
  assert (Hb2 : prepareXAuthority host_le mit_request_upper 10
                = Done (Ok (layout LittleEndian "h" "10" "MIT-MAGIC-COOKIE-1"
                              (cookie 16))))
    by (vm_compute; reflexivity).
  split; [reflexivity|]. split; [exact Hd1|]. split; [exact Hd2|].
  split; [exact Hf1|]. split; [exact Hf2|]. split; [exact Hb1|].
  split; [exact Hb2|].
  apply (prepareXAuthority_determines_fields host_le mit_request
           mit_request_upper 10 10 "h" _ _ _ eq_refl Hd1 Hd2 Hf1 Hf2 Hb1 Hb2).
Defined.

(** X10.  From the wire to the file: a well-formed [x11-req] payload that
    carries protocol name [name] and the hexadecimal form of the bytes
    [data] is decoded by [parseX11Request], and the record
    [prepareXAuthority] builds from the decoded request reads back with
    that name, those bytes and the display number given, when it fits
    16-bit sizes. *)
Theorem x11_request_to_record (h : Host) (hostname name : string)
    (data more : list byte) (single : bool) (screen seat : Z) :
  let request := {| SingleConnection := single; AuthProtocol := name;
                    AuthData := EncodeToString data; ScreenNumber := screen |} in
  osHostname h = Ok hostname ->
  0 <= screen < 4294967296 ->
  len (wire_x11 request more) < 4294967296 ->
  record_size hostname seat name data <= 65535 ->
  exists (buf : list byte) (r : XAuthority),
    parseX11Request (wire_x11 request more) = Done (request, true)
    /\ prepareXAuthority h request seat = Done (Ok buf)
    /\ readXAuthority (hostOrder h) buf = Some (r, [])
    /\ Name r = name
    /\ list_byte_of_string (Data r) = data
    /\ Atoi (Number r) = Some seat.
Proof.
  intros request Hhost Hscreen Hlen Hfit.
  assert (Hdec : DecodeString (AuthData request) = (data, None))
    by apply DecodeString_EncodeToString.
  eexists. eexists. split.
  { unfold wire_x11, parseX11Request in *.
    cbn [SingleConnection AuthProtocol AuthData ScreenNumber request] in *.
    rewrite !len_app, !len_wire_string, len_put32 in Hlen.
    pose proof (len_nonneg more).
    assert (0 <= slen name) by (unfold slen; lia).
    assert (0 <= slen (EncodeToString data)) by (unfold slen; lia).
    assert (0 <= len (wire_bool single)) by apply len_nonneg.
    rewrite parseBool_wire. cbn [go_bind negb].
    rewrite parseString_wire
      by (rewrite !len_app, len_wire_string, len_put32; lia).
    cbn [go_bind negb].
    rewrite parseString_wire by (rewrite !len_app, len_put32; lia).
    cbn [go_bind negb].
    rewrite parseUint32_put32 by assumption. reflexivity. }
  split.
  { apply (prepareXAuthority_layout h request seat hostname data); assumption. }
  unfold record_size in Hfit.
  assert (0 <= slen hostname) by (unfold slen; lia).
  assert (0 <= slen (Itoa seat)) by (unfold slen; lia).
  assert (0 <= slen name) by (unfold slen; lia).
  pose proof (len_nonneg data).
  split; [apply readXAuthority_layout; cbn [AuthProtocol request]; lia|].
  cbn [Name Data Number AuthProtocol request].
  rewrite Atoi_Itoa, list_byte_of_string_of_list_byte. repeat split.
Qed.

Lemma x11_request_to_record_witness :
  osHostname host_le = Ok "h"%string
  /\ 0 <= 0 < 4294967296
  /\ len (wire_x11 {| SingleConnection := false;
                      AuthProtocol := "MIT-MAGIC-COOKIE-1";
                      AuthData := EncodeToString (cookie 16);
                      ScreenNumber := 0 |} []) < 4294967296
  /\ record_size "h" 10 "MIT-MAGIC-COOKIE-1" (cookie 16) <= 65535
  /\ exists (buf : list byte) (r : XAuthority),
       parseX11Request
         (wire_x11 {| SingleConnection := false;
                      AuthProtocol := "MIT-MAGIC-COOKIE-1";
                      AuthData := EncodeToString (cookie 16);
                      ScreenNumber := 0 |} [])
       = Done ({| SingleConnection := false;
                  AuthProtocol := "MIT-MAGIC-COOKIE-1";
                  AuthData := EncodeToString (cookie 16);
                  ScreenNumber := 0 |}, true)
       /\ prepareXAuthority host_le
            {| SingleConnection := false;
               AuthProtocol := "MIT-MAGIC-COOKIE-1";
               AuthData := EncodeToString (cookie 16);
               ScreenNumber := 0 |} 10 = Done (Ok buf)
       /\ readXAuthority (hostOrder host_le) buf = Some (r, [])
       /\ Name r = "MIT-MAGIC-COOKIE-1"%string
       /\ list_byte_of_string (Data r) = cookie 16
       /\ Atoi (Number r) = Some 10.
Proof.
  split; [reflexivity|]. split; [lia|]. split; [vm_compute; reflexivity|].
  split; [vm_compute; discriminate|].
  apply (x11_request_to_record host_le "h" "MIT-MAGIC-COOKIE-1" (cookie 16) []
           false 0 10);
    [reflexivity | lia | vm_compute; reflexivity | vm_compute; discriminate].
Defined.

End XAuthContracts.

(** ** The display allocator: what a call leaves behind *)

Section AllocContracts.
Import Sys XAuth Alloc Samples.

Lemma candidates_snoc (i : Z) (n : nat) :
  candidates i (S n)
  = candidates i n ++ [X11DisplayBasePort + X11DisplayOffset + i + Z.of_nat n].
Proof.
  unfold candidates. rewrite List.seq_S, List.map_app. reflexivity.
Qed.

(** Among the candidates from [i] on, either all are taken or there is a
    first free one. *)
Lemma first_free_or_exhausted (os : OS) (i : Z) (n : nat) :
  list_to_set (candidates i n) ⊆ bound os
  \/ exists j : nat,
       (j < n)%nat
       /\ list_to_set (candidates i j) ⊆ bound os
       /\ (X11DisplayBasePort + X11DisplayOffset + i + Z.of_nat j) ∉ bound os.
Proof.
  induction n as [|n IH].
  - left. cbn. set_solver.
  - destruct IH as [Hall | (j & Hj & Hbusy & Hfree)].
    + destruct (decide ((X11DisplayBasePort + X11DisplayOffset + i + Z.of_nat n)
                        ∈ bound os)) as [Hin|Hout].
      * left. rewrite candidates_snoc, list_to_set_app_L. set_solver.
      * right. exists n. repeat split; [lia | assumption | assumption].
    + right. exists j. repeat split; [lia | assumption | assumption].
Qed.

Lemma NewX11Forwarder_exhausted (h : Host) (request : X11) (os : OS)
    (name : string) :
  osCreateTemp h = Ok name ->
  list_to_set (candidates 0 50) ⊆ bound os ->
  NewX11Forwarder h request os
  = (Done (None, None, None),
     {| fs := delete name (<[name := []]> (fs os));
        bound := bound os;
        logged := logged os ++ map ErrAddrInUse (candidates 0 50) |}).
Proof.
  intros Htemp Hbusy. unfold NewX11Forwarder, CreateTemp. rewrite Htemp.
  rewrite attempts_exhausted by exact Hbusy. reflexivity.
Qed.

(** The three ways a call can go. *)
Lemma NewX11Forwarder_cases (h : Host) (os : OS) :
  (exists e, osCreateTemp h = Err e)
  \/ (exists name, osCreateTemp h = Ok name
                   /\ list_to_set (candidates 0 50) ⊆ bound os)
  \/ (exists (name : string) (i : nat),
        osCreateTemp h = Ok name
        /\ (i < 50)%nat
        /\ list_to_set (candidates 0 i) ⊆ bound os
        /\ (X11DisplayBasePort + X11DisplayOffset + Z.of_nat i) ∉ bound os).
Proof.
  destruct (osCreateTemp h) as [name|e]; [|left; eauto].
  right. destruct (first_free_or_exhausted os 0 50)
    as [Hall | (j & Hj & Hbusy & Hfree)].
  - left. eauto.
  - right. exists name, j. replace (X11DisplayBasePort + X11DisplayOffset + 0
                                    + Z.of_nat j)
      with (X11DisplayBasePort + X11DisplayOffset + Z.of_nat j) in Hfree by lia.
    repeat split; assumption.
Qed.

Lemma NewX11Forwarder_no_temp (h : Host) (request : X11) (os : OS) (e : error) :
  osCreateTemp h = Err e ->
  NewX11Forwarder h request os = (Done (None, None, Some e), os).
Proof. intros H. unfold NewX11Forwarder, CreateTemp. now rewrite H. Qed.


(** X11.  Whenever [NewX11Forwarder] returns a listener, the error is
    [nil] and the file is the temporary file; the listener is on
    [localhost], on the lowest candidate port 6010..6059 that was free
    before the call (every lower candidate was taken, and their bind
    errors were logged in order); that port is the only one newly bound;
    and the file already holds the record built for display [port-6000]. *)
Theorem NewX11Forwarder_success_contract (h : Host) (request : X11)
    (os os' : OS) (ln : Listener) (f : option File) (e : option error) :
  NewX11Forwarder h request os = (Done (Some ln, f, e), os') ->
  e = None
  /\ lnHost ln = "localhost"%string
  /\ exists (i : nat) (name : string) (buf : list byte),
       (i < 50)%nat
       /\ lnPort ln = 6010 + Z.of_nat i
       /\ f = Some {| fileName := name |}
       /\ osCreateTemp h = Ok name
       /\ (lnPort ln ∉ bound os)
       /\ list_to_set (candidates 0 i) ⊆ bound os
       /\ bound os' = {[lnPort ln]} ∪ bound os
       /\ prepareXAuthority h request (lnPort ln - 6000) = Done (Ok buf)
       /\ fs os' !! name = Some buf
       /\ logged os' = logged os ++ map ErrAddrInUse (candidates 0 i).
Proof.
  intros Hret.
  destruct (NewX11Forwarder_cases h os)
    as [[e' Hno] | [(name & Htemp & Hall) | (name & i & Htemp & Hi & Hbusy & Hfree)]].
  - rewrite (NewX11Forwarder_no_temp h request os e' Hno) in Hret. discriminate.
  - rewrite (NewX11Forwarder_exhausted h request os name Htemp Hall) in Hret.
    discriminate.
  - rewrite (NewX11Forwarder_first_free h request os name i) in Hret
      by assumption.
    cbv zeta in Hret.
    destruct (prepareXAuthority h request (X11DisplayOffset + Z.of_nat i))
      as [[buf|e']|p] eqn:Hbuf; try discriminate.
    destruct (osWriteFile h); [discriminate|].
    injection Hret as <- <- <- <-. cbn [lnHost lnPort fs bound logged].
    split; [reflexivity|]. split; [reflexivity|].
    exists i, name, buf.
    replace (X11DisplayBasePort + X11DisplayOffset + Z.of_nat i - 6000)
      with (X11DisplayOffset + Z.of_nat i) by (unfold X11DisplayBasePort; lia).
    repeat split; try assumption; try reflexivity.
    apply lookup_insert_eq.
Qed.

Lemma NewX11Forwarder_allocates_display10 :
  NewX11Forwarder host_le mit_request (os_with [])
  = (Done (Some ln10, Some xauth10, None), os_display10).
Proof.
  rewrite (NewX11Forwarder_first_free host_le mit_request (os_with [])
             "/tmp/.Xauthority1" 0);
    [| reflexivity | lia | reflexivity | apply not_elem_of_empty].
  cbv zeta.
  replace (prepareXAuthority host_le mit_request (X11DisplayOffset + Z.of_nat 0))
    with (@Done (result (list byte))
            (Ok (layout LittleEndian "h" "10" "MIT-MAGIC-COOKIE-1" (cookie 16))))
    by (vm_compute; reflexivity).
  reflexivity.
Qed.

Lemma NewX11Forwarder_success_contract_witness :
  NewX11Forwarder host_le mit_request (os_with [])
  = (Done (Some ln10, Some xauth10, None), os_display10)
  /\ (@None error = None
      /\ lnHost ln10 = "localhost"%string
      /\ exists (i : nat) (name : string) (buf : list byte),
           (i < 50)%nat
           /\ lnPort ln10 = 6010 + Z.of_nat i
           /\ Some xauth10 = Some {| fileName := name |}
           /\ osCreateTemp host_le = Ok name
           /\ (lnPort ln10 ∉ bound (os_with []))
           /\ list_to_set (candidates 0 i) ⊆ bound (os_with [])
           /\ bound os_display10 = {[lnPort ln10]} ∪ bound (os_with [])
           /\ prepareXAuthority host_le mit_request (lnPort ln10 - 6000)
              = Done (Ok buf)
           /\ fs os_display10 !! name = Some buf
           /\ logged os_display10
              = logged (os_with []) ++ map ErrAddrInUse (candidates 0 i)).
Proof.
  split; [exact NewX11Forwarder_allocates_display10|].
  apply (NewX11Forwarder_success_contract host_le mit_request (os_with [])
           os_display10 ln10 (Some xauth10) None
           NewX11Forwarder_allocates_display10).
Defined.

(** X12.  Whenever [NewX11Forwarder] returns no listener it returns no
    file either, the set of bound ports is what it was before the call,
    and the temporary file, if one was created, does not exist any more.
    The error returned with them is [nil] only when all 50 candidate ports
    were taken. *)
Theorem NewX11Forwarder_failure_contract (h : Host) (request : X11)
    (os os' : OS) (f : option File) (e : option error) :
  NewX11Forwarder h request os = (Done (None, f, e), os') ->
  f = None
  /\ bound os' = bound os
  /\ (forall name, osCreateTemp h = Ok name -> fs os' !! name = None)
  /\ (e = None -> list_to_set (candidates 0 50) ⊆ bound os).
Proof.
  intros Hret.
  destruct (NewX11Forwarder_cases h os)
    as [[e' Hno] | [(name & Htemp & Hall) | (name & i & Htemp & Hi & Hbusy & Hfree)]].
  - rewrite (NewX11Forwarder_no_temp h request os e' Hno) in Hret.
    injection Hret as <- <- <-.
    repeat split; [intros name Hn; congruence | discriminate].
  - rewrite (NewX11Forwarder_exhausted h request os name Htemp Hall) in Hret.
    injection Hret as <- <- <-. cbn [fs bound].
    repeat split; [|intros _; exact Hall].
    intros name' Hn. assert (name' = name) as -> by congruence.
    apply lookup_delete_eq.
  - rewrite (NewX11Forwarder_first_free h request os name i) in Hret
      by assumption.
    cbv zeta in Hret.
    assert (Hb : ({[X11DisplayBasePort + X11DisplayOffset + Z.of_nat i]} ∪ bound os)
                 ∖ {[X11DisplayBasePort + X11DisplayOffset + Z.of_nat i]}
                 = bound os) by set_solver.
    destruct (prepareXAuthority h request (X11DisplayOffset + Z.of_nat i))
      as [[buf|e']|p] eqn:Hbuf; try discriminate;
      [destruct (osWriteFile h); [|discriminate]|];
      injection Hret as <- <- <-; cbn [fs bound Remove Close lnPort];
      (repeat split; [exact Hb | | discriminate]);
      intros name' Hn; assert (name' = name) as -> by congruence;
      apply lookup_delete_eq.
Qed.

Lemma NewX11Forwarder_failure_contract_witness :
  NewX11Forwarder host_ro mit_request (os_with [])
  = (Done (None, None, Some ErrWriteFile),
     Remove "/tmp/.Xauthority1"
       (Close ln10
          {| fs := <["/tmp/.Xauthority1"%string := []]> ∅;
             bound := {[6010]} ∪ ∅; logged := [] ++ [] |}))
  /\ (@None File = None
      /\ bound (Remove "/tmp/.Xauthority1"
                  (Close ln10
                     {| fs := <["/tmp/.Xauthority1"%string := []]> ∅;
                        bound := {[6010]} ∪ ∅; logged := [] ++ [] |}))
         = bound (os_with [])
      /\ (forall name, osCreateTemp host_ro = Ok name ->
          fs (Remove "/tmp/.Xauthority1"
                (Close ln10
                   {| fs := <["/tmp/.Xauthority1"%string := []]> ∅;
                      bound := {[6010]} ∪ ∅; logged := [] ++ [] |})) !! name
          = None)
      /\ (Some ErrWriteFile = None ->
          list_to_set (candidates 0 50) ⊆ bound (os_with []))).
Proof.
  assert (Hrun : NewX11Forwarder host_ro mit_request (os_with [])
                 = (Done (None, None, Some ErrWriteFile),
                    Remove "/tmp/.Xauthority1"
                      (Close ln10
                         {| fs := <["/tmp/.Xauthority1"%string := []]> ∅;
                            bound := {[6010]} ∪ ∅; logged := [] ++ [] |}))).
  { rewrite (NewX11Forwarder_first_free host_ro mit_request (os_with [])
               "/tmp/.Xauthority1" 0);
      [| reflexivity | lia | reflexivity | apply not_elem_of_empty].
    cbv zeta.
    replace (prepareXAuthority host_ro mit_request (X11DisplayOffset + Z.of_nat 0))
      with (@Done (result (list byte))
              (Ok (layout LittleEndian "h" "10" "MIT-MAGIC-COOKIE-1" (cookie 16))))
      by (vm_compute; reflexivity).
    reflexivity. }
  split; [exact Hrun|].
  apply (NewX11Forwarder_failure_contract host_ro mit_request (os_with []) _
           None (Some ErrWriteFile) Hrun).
Defined.

(** X13.  Whatever the outcome (a listener, an error, a panic),
    [NewX11Forwarder] leaves every file other than its temporary file as
    it was. *)
Theorem NewX11Forwarder_keeps_other_files (h : Host) (request : X11)
    (os os' : OS) (r : go results) (path : string) :
  NewX11Forwarder h request os = (r, os') ->
  osCreateTemp h <> Ok path ->
  fs os' !! path = fs os !! path.
Proof.
  intros Hret Hother.
  destruct (NewX11Forwarder_cases h os)
    as [[e' Hno] | [(name & Htemp & Hall) | (name & i & Htemp & Hi & Hbusy & Hfree)]].
  - rewrite (NewX11Forwarder_no_temp h request os e' Hno) in Hret.
    now injection Hret as _ <-.
  - assert (Hne : name <> path) by congruence.
    rewrite (NewX11Forwarder_exhausted h request os name Htemp Hall) in Hret.
    injection Hret as _ <-. cbn [fs].
    now rewrite lookup_delete_ne, lookup_insert_ne.
  - assert (Hne : name <> path) by congruence.
    rewrite (NewX11Forwarder_first_free h request os name i) in Hret
      by assumption.
    cbv zeta in Hret.
    destruct (prepareXAuthority h request (X11DisplayOffset + Z.of_nat i))
      as [[buf|e']|p]; [destruct (osWriteFile h)| |];
      injection Hret as _ <-; cbn [fs Remove Close];
      rewrite ?lookup_delete_ne, ?lookup_insert_ne by assumption; reflexivity.
Qed.

Lemma NewX11Forwarder_allocates_on_os_home :
  NewX11Forwarder host_le mit_request os_home
  = (Done (Some ln10, Some xauth10, None), os_home_display10).
Proof.
  rewrite (NewX11Forwarder_first_free host_le mit_request os_home
             "/tmp/.Xauthority1" 0);
    [| reflexivity | lia | reflexivity | apply not_elem_of_empty].
  cbv zeta.
  replace (prepareXAuthority host_le mit_request (X11DisplayOffset + Z.of_nat 0))
    with (@Done (result (list byte))
            (Ok (layout LittleEndian "h" "10" "MIT-MAGIC-COOKIE-1" (cookie 16))))
    by (vm_compute; reflexivity).
  reflexivity.
Qed.

Lemma NewX11Forwarder_keeps_other_files_witness :
  NewX11Forwarder host_le mit_request os_home
  = (Done (Some ln10, Some xauth10, None), os_home_display10)
  /\ osCreateTemp host_le <> Ok "/home/u/.profile"%string
  /\ fs os_home_display10 !! "/home/u/.profile"%string
     = fs os_home !! "/home/u/.profile"%string.
Proof.
  assert (Hother : osCreateTemp host_le <> Ok "/home/u/.profile"%string)
    by discriminate.
  split; [exact NewX11Forwarder_allocates_on_os_home|]. split; [exact Hother|].
  apply (NewX11Forwarder_keeps_other_files host_le mit_request os_home
           os_home_display10 _ "/home/u/.profile"
           NewX11Forwarder_allocates_on_os_home Hother).
Defined.

Lemma NewX11Forwarder_panic_leaves_state_witness :
  osCreateTemp host_le = Ok "/tmp/.Xauthority1"%string
  /\ (0 < 50)%nat
  /\ list_to_set (candidates 0 0) ⊆ bound (os_with [])
  /\ ((X11DisplayBasePort + X11DisplayOffset + Z.of_nat 0) ∉ bound (os_with []))
  /\ prepareXAuthority host_le req_panic (X11DisplayOffset + Z.of_nat 0)
     = Panic (SliceBounds 9 7 7)
  /\ exists os' : OS,
       NewX11Forwarder host_le req_panic (os_with [])
       = (Panic (SliceBounds 9 7 7), os')
       /\ fs os' !! "/tmp/.Xauthority1"%string = Some []
       /\ (X11DisplayBasePort + X11DisplayOffset + Z.of_nat 0) ∈ bound os'.
Proof.
  assert (Hp : prepareXAuthority host_le req_panic (X11DisplayOffset + Z.of_nat 0)
               = Panic (SliceBounds 9 7 7)) by (vm_compute; reflexivity).
  split; [reflexivity|]. split; [lia|]. split; [reflexivity|].
  split; [apply not_elem_of_empty|]. split; [exact Hp|].
  apply (NewX11Forwarder_panic_leaves_state host_le req_panic (os_with [])
           "/tmp/.Xauthority1" 0 (SliceBounds 9 7 7));
    [reflexivity | lia | reflexivity | apply not_elem_of_empty | exact Hp].
Defined.

End AllocContracts.

(** ** The accept loop: what a run leaves behind *)

Section EngineContracts.
Import Sys Alloc Engine Samples.

(** The outcome of the loop from any state, whatever the events are. *)
Lemma acceptLoop_outcome (l : Listener) (xauth : File) (pending : list event) :
  forall (os : OS) (done : list action) (st : status) (acts : list action)
         (os' : OS),
    acceptLoop l xauth pending os done = (st, acts, os') ->
    exists (cs : list Conn) (rest : list event),
      pending = map Connects cs ++ rest
      /\ acts = done ++ map Spawned cs
                 ++ match st with
                    | Stopped => [Removed (fileName xauth)]
                    | Running => []
                    end
      /\ match st with
         | Running => rest = [] /\ lnPort l ∈ bound os /\ os' = os
         | Stopped =>
             (((lnPort l ∉ bound os) /\ cs = [])
              \/ exists e rest', rest = e :: rest' /\ is_failure e = true)
             /\ fs os' = delete (fileName xauth) (fs os)
             /\ bound os' ⊆ bound os
             /\ logged os' = logged os
         end.
Proof.
  induction pending as [|e pending IH]; intros os done st acts os';
    cbn [acceptLoop];
    destruct (decide (lnPort l ∈ bound os)) as [Hopen|Hclosed].
  - intros H. injection H as <- <- <-. exists [], [].
    cbn [map app]. rewrite List.app_nil_r. now repeat split.
  - intros H. injection H as <- <- <-. exists [], [].
    cbn [map app]. repeat split; [left; now split | done].
  - destruct e as [c|code|]; cbn [Accept].
    + intros H. apply IH in H as (cs & rest & -> & -> & Hst).
      exists (c :: cs), rest. cbn [map app].
      rewrite <- List.app_assoc. cbn [app].
      split; [reflexivity|]. split; [reflexivity|].
      destruct st; [exact Hst|].
      destruct Hst as [[[Hclosed _]|Hfail] Hrest]; [contradiction|].
      split; [right; exact Hfail | exact Hrest].
    + intros H. injection H as <- <- <-. exists [], (Fails code :: pending).
      cbn [map app]. repeat split; [right; now eexists _, _ | done].
    + intros H. injection H as <- <- <-. exists [], (Closes :: pending).
      cbn [map app fs bound logged Remove Close].
      repeat split; [right; now eexists _, _ | set_solver].
  - intros H. injection H as <- <- <-. exists [], (e :: pending).
    cbn [map app]. repeat split; [left; now split | done].
Qed.

(** X16.  However the events at the listener go, [ForwardX11Connections]
    starts one goroutine per connection accepted, in order, and nothing
    else until it stops; it is still running only when the listener is open
    and every event was a connection, and then it has changed nothing.
    When it stops, at the first failure of [Accept] or at once on a closed
    listener, its last action is the one removal of the authority file; it
    has touched no other file, bound no port and logged nothing. *)
Theorem ForwardX11Connections_outcome (l : Listener) (xauth : File)
    (pending : list event) (os os' : OS) (st : status) (acts : list action) :
  ForwardX11Connections l xauth pending os = (st, acts, os') ->
  exists (cs : list Conn) (rest : list event),
    pending = map Connects cs ++ rest
    /\ acts = map Spawned cs
               ++ match st with
                  | Stopped => [Removed (fileName xauth)]
                  | Running => []
                  end
    /\ match st with
       | Running => rest = [] /\ lnPort l ∈ bound os /\ os' = os
       | Stopped =>
           (((lnPort l ∉ bound os) /\ cs = [])
            \/ exists e rest', rest = e :: rest' /\ is_failure e = true)
           /\ fs os' = delete (fileName xauth) (fs os)
           /\ bound os' ⊆ bound os
           /\ logged os' = logged os
       end.
Proof.
  unfold ForwardX11Connections. intros H.
  apply acceptLoop_outcome in H as (cs & rest & Hp & Ha & Hst).
  exists cs, rest. repeat split; assumption.
Qed.

Lemma ForwardX11Connections_outcome_witness :
  ForwardX11Connections ln10 xauth10
    (map Connects [client "40001"] ++ Fails 24 :: [Connects (client "40002")])
    os_serving
  = (Stopped, [] ++ map Spawned [client "40001"] ++ [Removed (fileName xauth10)],
     Remove (fileName xauth10) os_serving)
  /\ exists (cs : list Conn) (rest : list event),
       map Connects [client "40001"] ++ Fails 24 :: [Connects (client "40002")]
       = map Connects cs ++ rest
       /\ [] ++ map Spawned [client "40001"] ++ [Removed (fileName xauth10)]
          = map Spawned cs ++ [Removed (fileName xauth10)]
       /\ (((lnPort ln10 ∉ bound os_serving) /\ cs = [])
           \/ exists e rest', rest = e :: rest' /\ is_failure e = true)
       /\ fs (Remove (fileName xauth10) os_serving)
          = delete (fileName xauth10) (fs os_serving)
       /\ bound (Remove (fileName xauth10) os_serving) ⊆ bound os_serving
       /\ logged (Remove (fileName xauth10) os_serving) = logged os_serving.
Proof.
  assert (Hopen : lnPort ln10 ∈ bound os_serving) by compute_done.
  assert (Hrun : ForwardX11Connections ln10 xauth10
                   (map Connects [client "40001"]
                    ++ Fails 24 :: [Connects (client "40002")]) os_serving
                 = (Stopped,
                    [] ++ map Spawned [client "40001"]
                    ++ [Removed (fileName xauth10)],
                    Remove (fileName xauth10) os_serving)).
  { unfold ForwardX11Connections.
    rewrite (acceptLoop_connects ln10 xauth10 [client "40001"] _ os_serving Hopen).
    rewrite (acceptLoop_first_failure ln10 xauth10 (Fails 24) _ os_serving _
               Hopen eq_refl).
    rewrite <- List.app_assoc. reflexivity. }
  split; [exact Hrun|].
  apply (ForwardX11Connections_outcome ln10 xauth10 _ os_serving _ Stopped _ Hrun).
Defined.



End EngineContracts.
